(** * SoLoud Nintendo 3DS homebrew output backend

    A shallow embedding of [src/backend/n3ds_homebrew/soloud_n3ds_homebrew.cpp]
    (the [WITH_N3DS_HOMEBREW] branch): the session record [N3Data], the NDSP
    frame callback [n3ds_audioCallback], the teardown [n3ds_cleanup], the
    producer thread [n3ds_thread] and the entry point [n3ds_homebrew_init].

    The C++ code talks to the outside through calls into libctru, libc and
    the SoLoud engine.  Each such call is recorded, with its arguments, in a
    log kept in the program state; memory reached through pointers is kept in
    finite maps from addresses to objects. *)

From Stdlib Require Import ZArith Lia List.
From stdpp Require Import base option list gmap.
Import ListNotations.

#[local] Open Scope Z_scope.

(* ===================================================================== *)
(** ** Machine integers *)
(* ===================================================================== *)

Module Int.

(** [unsigned int], [size_t] and [u32] on the ARM11 target are 32 bits
    wide; unsigned arithmetic is taken modulo 2^32. *)
Definition wrap32 (z : Z) : Z := z mod 2 ^ 32.

(** [int32_t]: two's complement reading of the low 32 bits. *)
Definition sint32 (z : Z) : Z := (z + 2 ^ 31) mod 2 ^ 32 - 2 ^ 31.

Definition INT32_MIN : Z := - 2 ^ 31.
Definition INT32_MAX : Z := 2 ^ 31 - 1.
Definition UINT64_MAX : Z := 2 ^ 64 - 1.

(** [sizeof(int16_t)] *)
Definition sizeof_int16 : Z := 2.

Lemma wrap32_small z : 0 <= z < 2 ^ 32 -> wrap32 z = z.
Proof. intros H. unfold wrap32. apply Z.mod_small. exact H. Qed.

Lemma sint32_small z : INT32_MIN <= z <= INT32_MAX -> sint32 z = z.
Proof.
  unfold sint32, INT32_MIN, INT32_MAX. intros H.
  rewrite Z.mod_small; lia.
Qed.

End Int.

Import Int.

(* ===================================================================== *)
(** ** Data model *)
(* ===================================================================== *)

(** Addresses are byte addresses; the null pointer is address 0. *)
Definition NULL : Z := 0.

(** Modelled from the spec: the outcomes of the entry point (success,
    invalid configuration, hardware unavailable), under the names the source
    returns them by; the enumeration itself is declared in [soloud.h].
    [SO_NO_ERROR] is the literal [0] of line 187. *)
Inductive result : Type :=
| SO_NO_ERROR
| INVALID_PARAMETER
| UNKNOWN_ERROR.

(** Modelled from the spec: the status carried by a hardware-queue descriptor
    (free / queued / done); the declaration lives in libctru's headers. *)
Inductive wbuf_status : Type :=
| NDSP_WBUF_FREE
| NDSP_WBUF_QUEUED
| NDSP_WBUF_DONE.

(** Modelled from the spec: the enumerators passed to the one-time channel
    configuration calls (stereo output, polyphase interpolation, stereo
    16-bit format); their declarations live in libctru's headers. *)
Inductive ndsp_enum : Type :=
| NDSP_OUTPUT_STEREO
| NDSP_INTERP_POLYPHASE
| NDSP_FORMAT_STEREO_PCM16.

(** Modelled from the spec: a buffer descriptor [ndspWaveBuf], with the
    fields this file touches.  [data_vaddr] and [data_pcm16] are members of
    one union in the descriptor, hence a single field here. *)
Record ndspWaveBuf : Type := mkWaveBuf {
  data_vaddr : Z;
  nsamples   : Z;
  status     : wbuf_status
}.

Definition data_pcm16 (b : ndspWaveBuf) : Z := data_vaddr b.

(** [struct N3Data], lines 51-61.  [wavebufs] is an array of two
    _pointers_ to descriptors, as in the source ([ndspWaveBuf *wavebufs[2]]).
    The [LightEvent] is kept as one bit, set while a wake signal is
    pending. *)
Record N3Data : Type := mkN3Data {
  event             : bool;      (* LightEvent: is the wake signal set *)
  done              : bool;      (* std::atomic<bool> *)
  samplesPerWavebuf : Z;
  numChannels       : Z;
  soloud            : Z;         (* Soloud* *)
  tid               : Z;         (* ::Thread *)
  audioBuffer       : Z;         (* int16_t* *)
  wavebufs          : list Z     (* ndspWaveBuf*[2] *)
}.

(** [memset(data, 0, sizeof( *data))] *)
Definition N3Data_zero : N3Data :=
  mkN3Data false false 0 0 NULL 0 NULL [NULL; NULL].

Definition set_event (v : bool) (d : N3Data) : N3Data :=
  mkN3Data v (done d) (samplesPerWavebuf d) (numChannels d) (soloud d)
           (tid d) (audioBuffer d) (wavebufs d).
Definition set_done (v : bool) (d : N3Data) : N3Data :=
  mkN3Data (event d) v (samplesPerWavebuf d) (numChannels d) (soloud d)
           (tid d) (audioBuffer d) (wavebufs d).
Definition set_samplesPerWavebuf (v : Z) (d : N3Data) : N3Data :=
  mkN3Data (event d) (done d) v (numChannels d) (soloud d)
           (tid d) (audioBuffer d) (wavebufs d).
Definition set_numChannels (v : Z) (d : N3Data) : N3Data :=
  mkN3Data (event d) (done d) (samplesPerWavebuf d) v (soloud d)
           (tid d) (audioBuffer d) (wavebufs d).
Definition set_soloud (v : Z) (d : N3Data) : N3Data :=
  mkN3Data (event d) (done d) (samplesPerWavebuf d) (numChannels d) v
           (tid d) (audioBuffer d) (wavebufs d).
Definition set_tid (v : Z) (d : N3Data) : N3Data :=
  mkN3Data (event d) (done d) (samplesPerWavebuf d) (numChannels d) (soloud d)
           v (audioBuffer d) (wavebufs d).
Definition set_audioBuffer (v : Z) (d : N3Data) : N3Data :=
  mkN3Data (event d) (done d) (samplesPerWavebuf d) (numChannels d) (soloud d)
           (tid d) v (wavebufs d).

Definition set_data_vaddr (v : Z) (b : ndspWaveBuf) : ndspWaveBuf :=
  mkWaveBuf v (nsamples b) (status b).
Definition set_nsamples (v : Z) (b : ndspWaveBuf) : ndspWaveBuf :=
  mkWaveBuf (data_vaddr b) v (status b).
Definition set_status (v : wbuf_status) (b : ndspWaveBuf) : ndspWaveBuf :=
  mkWaveBuf (data_vaddr b) (nsamples b) v.

(** The function stored in [mBackendCleanupFunc]. *)
Inductive cleanup_fn : Type := fn_n3ds_cleanup.

(** Modelled from the spec: the engine object [Soloud], declared in
    [soloud.h], reduced to the backend-state slot and the cleanup entry this
    file assigns. *)
Record Soloud : Type := mkSoloud {
  mBackendData        : Z;                  (* void*, NULL when absent *)
  mBackendCleanupFunc : option cleanup_fn
}.

(** Calls that leave this translation unit, in the order they are made.
    [ndspChnWaveBufAdd] also records the index [buf_id] that selected the
    descriptor; [atomic_store_done] is the write [data->done = true]. *)
Inductive call : Type :=
| ndspInit
| ndspChnReset (ch : Z)
| ndspSetOutputMode (mode : ndsp_enum)
| ndspChnSetInterp (ch : Z) (mode : ndsp_enum)
| ndspChnSetRate (ch : Z) (rate : Z)
| ndspChnSetFormat (ch : Z) (fmt : ndsp_enum)
| new_N3Data (p : Z)
| linearAlloc (size : Z)
| postinit_internal (rate bufsize flags channels : Z)
| ndspSetCallback (ctx : Z)
| svcGetThreadPriority
| threadCreate (arg stack prio core : Z) (detached : bool)
| mixSigned16 (eng dst samples : Z)
| ndspChnWaveBufAdd (ch : Z) (buf_id : Z) (wavebuf : Z)
| DSP_FlushDataCache (addr size : Z)
| LightEvent_Signal (p : Z)
| LightEvent_Wait (p : Z)
| atomic_store_done (p : Z)
| threadJoin (t : Z) (timeout : Z)
| free_wavebufs_member (p : Z)        (* free(data->wavebufs) *)
| free (a : Z)
| delete_N3Data (p : Z).

(** Program state: the [N3Data] objects on the heap, the descriptor memory,
    the engine object, the callback context registered with NDSP, and the
    log of outside calls (oldest first). *)
Record world : Type := mkWorld {
  objs    : gmap Z N3Data;
  wbufs   : gmap Z ndspWaveBuf;
  engine  : Soloud;
  ndsp_cb : option Z;
  log     : list call
}.

Definition set_objs (m : gmap Z N3Data) (w : world) : world :=
  mkWorld m (wbufs w) (engine w) (ndsp_cb w) (log w).
Definition set_wbufs (m : gmap Z ndspWaveBuf) (w : world) : world :=
  mkWorld (objs w) m (engine w) (ndsp_cb w) (log w).
Definition set_engine (e : Soloud) (w : world) : world :=
  mkWorld (objs w) (wbufs w) e (ndsp_cb w) (log w).
Definition set_ndsp_cb (c : option Z) (w : world) : world :=
  mkWorld (objs w) (wbufs w) (engine w) c (log w).
Definition set_log (l : list call) (w : world) : world :=
  mkWorld (objs w) (wbufs w) (engine w) (ndsp_cb w) l.

(* ===================================================================== *)
(** ** Execution monad: state plus memory faults *)
(* ===================================================================== *)

(** A computation either finishes with a value and a new state, or stops at
    an access through a pointer that references no object or at a [free] of
    something [malloc] never handed out; [Fault] keeps the state reached
    when that was attempted. *)
Inductive outcome (A : Type) : Type :=
| Ok (a : A) (w : world)
| Fault (w : world).
Arguments Ok {A} a w.
Arguments Fault {A} w.

Definition exec (A : Type) : Type := world -> outcome A.

#[global] Instance exec_ret : MRet exec := fun A a w => Ok a w.
#[global] Instance exec_bind : MBind exec :=
  fun A B f m w => match m w with
                   | Ok a w' => f a w'
                   | Fault w' => Fault w'
                   end.

Definition fault {A} : exec A := fun w => Fault w.

Definition modify_world (f : world -> world) : exec unit :=
  fun w => Ok tt (f w).

(** Record an outside call. *)
Definition emit (c : call) : exec unit :=
  modify_world (fun w => set_log (log w ++ [c]) w).

(** Read the [N3Data] object behind [p]. *)
Definition load_data (p : Z) : exec N3Data :=
  fun w => if p =? NULL then Fault w
           else match objs w !! p with
                | Some d => Ok d w
                | None => Fault w
                end.

(** Update the [N3Data] object behind [p] in place. *)
Definition modify_data (p : Z) (f : N3Data -> N3Data) : exec unit :=
  d ← load_data p;
  modify_world (fun w => set_objs (<[p := f d]> (objs w)) w).

(** Read the descriptor behind [b]. *)
Definition load_wb (b : Z) : exec ndspWaveBuf :=
  fun w => if b =? NULL then Fault w
           else match wbufs w !! b with
                | Some x => Ok x w
                | None => Fault w
                end.

(** Update the descriptor behind [b] in place. *)
Definition modify_wb (b : Z) (f : ndspWaveBuf -> ndspWaveBuf) : exec unit :=
  x ← load_wb b;
  modify_world (fun w => set_wbufs (<[b := f x]> (wbufs w)) w).

Definition get_engine : exec Soloud := fun w => Ok (engine w) w.
Definition put_engine (e : Soloud) : exec unit := modify_world (set_engine e).
Definition put_ndsp_cb (c : option Z) : exec unit := modify_world (set_ndsp_cb c).

(** [a[i]] on a C array of pointers. *)
Definition index (a : list Z) (i : Z) : exec Z :=
  if i <? 0 then fault
  else match a !! Z.to_nat i with
       | Some x => mret x
       | None => fault
       end.

(* ===================================================================== *)
(** ** The backend *)
(* ===================================================================== *)

(** [LightEvent_Signal(&data->event)]: sets the wake signal of the session
    behind [p]. *)
Definition signal_event (p : Z) : exec unit :=
  modify_data p (set_event true);;
  emit (LightEvent_Signal p).

(** [n3ds_audioCallback], lines 67-76. *)
Definition n3ds_audioCallback (data_ : Z) : exec unit :=
  data ← load_data data_;
  if done data then mret tt
  else signal_event data_.

(** [n3ds_cleanup], lines 85-86: raise the quit flag and wake the thread. *)
Definition cleanup_signal (data : Z) : exec unit :=
  modify_data data (set_done true);;
  emit (atomic_store_done data);;
  signal_event data.

(** [free(data->wavebufs)], line 94.  The argument is the address of the
    member array inside the record obtained from [new]; it is not a block
    handed out by [malloc], and [free] does not return from it. *)
Definition free_member_array (data : Z) : exec unit :=
  emit (free_wavebufs_member data);;
  fault.

(** [free(a)], line 95.  No block of this program comes from [malloc] (the
    sample storage comes from [linearAlloc]), so the only argument [free]
    returns from is the null pointer. *)
Definition libc_free (a : Z) : exec unit :=
  emit (free a);;
  if a =? NULL then mret tt else fault.

(** [n3ds_cleanup], lines 88-98: join, release, clear the handle. *)
Definition cleanup_release (data : Z) : exec unit :=
  d ← load_data data;
  emit (threadJoin (tid d) UINT64_MAX);;
  free_member_array data;;
  d ← load_data data;
  libc_free (audioBuffer d);;
  emit (delete_N3Data data);;
  modify_world (fun w => set_objs (delete data (objs w)) w);;
  e ← get_engine;
  put_engine (mkSoloud NULL (mBackendCleanupFunc e)).

(** [n3ds_cleanup], lines 78-99, on the engine object of the state. *)
Definition n3ds_cleanup : exec unit :=
  e ← get_engine;
  if mBackendData e =? NULL then mret tt
  else
    let data := mBackendData e in
    cleanup_signal data;;
    cleanup_release data.

(** The body of the [while] loop of [n3ds_thread], lines 107-117; returns
    the toggled [buf_id]. *)
Definition n3ds_thread_body (data_ : Z) (buf_id : Z) : exec Z :=
  data ← load_data data_;
  buffer ← index (wavebufs data) buf_id;
  wb ← load_wb buffer;
  emit (mixSigned16 (soloud data) (data_vaddr wb) (samplesPerWavebuf data));;
  modify_wb buffer (set_nsamples (samplesPerWavebuf data));;
  emit (ndspChnWaveBufAdd 0 buf_id buffer);;
  wb ← load_wb buffer;
  emit (DSP_FlushDataCache (data_pcm16 wb)
          (wrap32 (wrap32 (samplesPerWavebuf data * numChannels data)
                   * sizeof_int16)));;
  mret (Z.lxor buf_id 1).

(** Lines 175-181: the priority handed to [threadCreate], from the value
    [svcGetThreadPriority] left in [priority]. *)
Definition n3ds_thread_priority (queried : Z) : Z :=
  let priority := queried in
  let priority := sint32 (priority - 1) in
  let priority := if priority <? 0x18 then 0x18 else priority in
  let priority := if priority >? 0x3F then 0x3F else priority in
  priority.

(** Lines 156-162: the range-[for] over [data->wavebufs]; [myBuffer] is a
    byte address, advanced by [wavebufSize / sizeof(int16_t)] elements. *)
Fixpoint init_wavebufs (ptrs : list Z) (myBuffer wavebufSize : Z) : exec unit :=
  match ptrs with
  | [] => mret tt
  | waveBuf :: rest =>
      modify_wb waveBuf (set_data_vaddr myBuffer);;
      modify_wb waveBuf (set_status NDSP_WBUF_DONE);;
      init_wavebufs rest
        (wrap32 (myBuffer + wavebufSize / sizeof_int16 * sizeof_int16))
        wavebufSize
  end.

(** What the outside hands back during [n3ds_homebrew_init]: the value of
    [ndspInit()], the address given by [new], the address given by
    [linearAlloc] ([NULL] when it fails), the priority written by
    [svcGetThreadPriority] ([None] when it leaves the variable alone) and
    the handle given by [threadCreate]. *)
Record init_env : Type := mkEnv {
  ndspInit_ret             : Z;
  new_ret                  : Z;
  linearAlloc_ret          : Z;
  svcGetThreadPriority_out : option Z;
  threadCreate_ret         : Z
}.

(** [n3ds_homebrew_init], lines 134-139: one-time channel setup. *)
Definition init_channel (aSamplerate : Z) : exec unit :=
  emit (ndspChnReset 0);;
  emit (ndspSetOutputMode NDSP_OUTPUT_STEREO);;
  emit (ndspChnSetInterp 0 NDSP_INTERP_POLYPHASE);;
  emit (ndspChnSetRate 0 aSamplerate);;
  emit (ndspChnSetFormat 0 NDSP_FORMAT_STEREO_PCM16).

(** [n3ds_homebrew_init], lines 141-162: the session record, the sample
    storage and the descriptors; returns [data]. *)
Definition init_session (aSoloud aBuffer aChannels : Z) (env : init_env)
    : exec Z :=
  let data := new_ret env in
  emit (new_N3Data data);;
  modify_world (fun w => set_objs (<[data := N3Data_zero]> (objs w)) w);;
  let wavebufSize := wrap32 (wrap32 (aChannels * aBuffer) * sizeof_int16) in
  let bufferSize := wrap32 (wavebufSize * 2) in
  emit (linearAlloc bufferSize);;
  modify_data data (set_audioBuffer (linearAlloc_ret env));;
  modify_data data (set_samplesPerWavebuf aBuffer);;
  modify_data data (set_numChannels aChannels);;
  modify_data data (set_soloud aSoloud);;
  d ← load_data data;
  init_wavebufs (wavebufs d) (audioBuffer d) wavebufSize;;
  mret data.

(** [n3ds_homebrew_init], lines 164-170: publish the session on the engine
    and register the frame callback. *)
Definition init_publish (data aFlags aSamplerate aChannels : Z) : exec unit :=
  e ← get_engine;
  put_engine (mkSoloud data (mBackendCleanupFunc e));;
  e ← get_engine;
  put_engine (mkSoloud (mBackendData e) (Some fn_n3ds_cleanup));;
  d ← load_data data;
  emit (postinit_internal aSamplerate
          (wrap32 (samplesPerWavebuf d * aChannels)) aFlags aChannels);;
  put_ndsp_cb (Some data);;
  emit (ndspSetCallback data).

(** [n3ds_homebrew_init], lines 172-187: spawn the audio thread. *)
Definition init_spawn (data : Z) (env : init_env) : exec result :=
  emit svcGetThreadPriority;;
  let priority :=
    n3ds_thread_priority (default 0x30 (svcGetThreadPriority_out env)) in
  emit (threadCreate data (32 * 1024) priority (-1) false);;
  modify_data data (set_tid (threadCreate_ret env));;
  mret SO_NO_ERROR.

(** [n3ds_homebrew_init], lines 124-188. *)
Definition n3ds_homebrew_init
    (aSoloud aFlags aSamplerate aBuffer aChannels : Z) (env : init_env)
    : exec result :=
  if negb (aSamplerate =? 44100) || negb (aChannels =? 2)
  then mret INVALID_PARAMETER
  else
    emit ndspInit;;
    if ndspInit_ret env =? 0
    then mret UNKNOWN_ERROR
    else
      init_channel aSamplerate;;
      data ← init_session aSoloud aBuffer aChannels env;
      init_publish data aFlags aSamplerate aChannels;;
      init_spawn data env.

(* ===================================================================== *)
(** ** The producer thread as a transition system *)
(* ===================================================================== *)

(** Where the thread running [n3ds_thread] stands: about to test
    [data->done] (line 106), parked in [LightEvent_Wait] (line 120), returned
    from the function, or stopped by a fault.  [buf_id] is the thread's local
    variable. *)
Inductive tstate : Type :=
| LoopHead (buf_id : Z)
| Blocked (buf_id : Z)
| Returned
| Aborted.

(** The state [n3ds_thread] starts in: [int buf_id = 0]. *)
Definition n3ds_thread_start : tstate := LoopHead 0.

(** One move of the thread: from the loop test through the body up to the
    wait, or out of the wait once the event is set (the wait consumes the
    signal).  A parked thread whose event is not set stays where it is. *)
Definition n3ds_thread_step (data_ : Z) (s : world * tstate) : world * tstate :=
  match snd s with
  | LoopHead b =>
      match load_data data_ (fst s) with
      | Ok d _ =>
          if done d then (fst s, Returned)
          else
            match (b' ← n3ds_thread_body data_ b;
                   emit (LightEvent_Wait data_);;
                   mret b') (fst s) with
            | Ok b' w' => (w', Blocked b')
            | Fault w' => (w', Aborted)
            end
      | Fault w' => (w', Aborted)
      end
  | Blocked b =>
      match load_data data_ (fst s) with
      | Ok d _ =>
          if event d
          then match modify_data data_ (set_event false) (fst s) with
               | Ok _ w' => (w', LoopHead b)
               | Fault w' => (w', Aborted)
               end
          else s
      | Fault w' => (w', Aborted)
      end
  | Returned => s
  | Aborted => s
  end.

(** What can happen next in the system: the thread moves, NDSP runs the
    registered frame callback, or the owner of the engine starts
    [n3ds_cleanup] and gets as far as waking the thread (lines 79-86). *)
Inductive action : Type :=
| ThreadStep
| FrameCallback
| RequestShutdown.

Definition request_shutdown : exec unit :=
  e ← get_engine;
  if mBackendData e =? NULL then mret tt
  else cleanup_signal (mBackendData e).

Definition lift_env (m : exec unit) (s : world * tstate) : world * tstate :=
  match m (fst s) with
  | Ok _ w' => (w', snd s)
  | Fault w' => (w', Aborted)
  end.

Definition sys_step (data_ : Z) (a : action) (s : world * tstate)
    : world * tstate :=
  match snd s with
  | Aborted => s
  | _ =>
      match a with
      | ThreadStep => n3ds_thread_step data_ s
      | FrameCallback =>
          match ndsp_cb (fst s) with
          | Some ctx => lift_env (n3ds_audioCallback ctx) s
          | None => s
          end
      | RequestShutdown => lift_env request_shutdown s
      end
  end.

(** Run a schedule, first action first. *)
Definition sys_run (data_ : Z) (sched : list action) (s : world * tstate)
    : world * tstate :=
  fold_left (fun st a => sys_step data_ a st) sched s.

(** The indices [buf_id] of the buffers handed to [ndspChnWaveBufAdd], in
    log order. *)
Fixpoint submitted (l : list call) : list Z :=
  match l with
  | [] => []
  | ndspChnWaveBufAdd _ i _ :: l' => i :: submitted l'
  | _ :: l' => submitted l'
  end.

(** The sequence 0,1,0,1,... of length [n], starting at [start]. *)
Fixpoint alternating (start : Z) (n : nat) : list Z :=
  match n with
  | O => []
  | S n' => start :: alternating (Z.lxor start 1) n'
  end.


(** The state one pass through the loop body leaves behind, when the
    session [d] and the descriptor [wb] behind [buffer] are in memory. *)
Definition body_result (b : Z) (w : world) (d : N3Data) (buffer : Z)
    (wb : ndspWaveBuf) : world :=
  mkWorld (objs w)
          (<[buffer := set_nsamples (samplesPerWavebuf d) wb]> (wbufs w))
          (engine w) (ndsp_cb w)
          (log w ++ [mixSigned16 (soloud d) (data_vaddr wb) (samplesPerWavebuf d);
                     ndspChnWaveBufAdd 0 b buffer;
                     DSP_FlushDataCache (data_vaddr wb)
                       (wrap32 (wrap32 (samplesPerWavebuf d * numChannels d)
                                * sizeof_int16))]).

(** The index the [n]-th submission (counting from 0) is expected to use. *)
Definition nth_index (n : nat) : Z := if Nat.even n then 0 else 1.

(** The state an outcome ends in. *)
Definition state_of {A} (o : outcome A) : world :=
  match o with
  | Ok _ w => w
  | Fault w => w
  end.

(** The value an outcome returns, if it returns. *)
Definition returned {A} (o : outcome A) : option A :=
  match o with
  | Ok a _ => Some a
  | Fault _ => None
  end.

(** A computation is quiet when, however it ends, it has only appended to
    the log, and nothing it appended is a submission. *)
Definition quiet {A} (m : exec A) : Prop :=
  forall w, exists l, log (state_of (m w)) = log w ++ l /\ submitted l = [].

(** The loop invariant of [n3ds_thread], relative to the state [w0] the
    thread was started in: the log has grown by [new], the submissions in
    [new] alternate from 0, and the thread's [buf_id] is the index the next
    submission is due to use. *)
Definition inv (w0 : world) (s : world * tstate) : Prop :=
  exists new,
    log (fst s) = log w0 ++ new /\
    submitted new = alternating 0 (length (submitted new)) /\
    match snd s with
    | LoopHead b | Blocked b => b = nth_index (length (submitted new))
    | Returned | Aborted => True
    end.

(** The session record as [n3ds_homebrew_init] has filled it in when it
    reaches the loop over [data->wavebufs] (line 157): zeroed by [memset],
    then lines 149-153.  Nothing has been stored in [wavebufs]. *)
Definition session_at_line_157
    (aSoloud aBuffer aChannels : Z) (env : init_env) : N3Data :=
  mkN3Data false false aBuffer aChannels aSoloud 0 (linearAlloc_ret env)
           [NULL; NULL].

(** The outside calls [n3ds_homebrew_init] has made, in the supported
    configuration, when it reaches line 157. *)
Definition calls_before_line_157 (aBuffer : Z) (env : init_env) : list call :=
  [ndspInit;
   ndspChnReset 0;
   ndspSetOutputMode NDSP_OUTPUT_STEREO;
   ndspChnSetInterp 0 NDSP_INTERP_POLYPHASE;
   ndspChnSetRate 0 44100;
   ndspChnSetFormat 0 NDSP_FORMAT_STEREO_PCM16;
   new_N3Data (new_ret env);
   linearAlloc (wrap32 (wrap32 (wrap32 (2 * aBuffer) * sizeof_int16) * 2))].

(* ===================================================================== *)
(** ** Sample states *)
(* ===================================================================== *)

Module Sample.

(** A session at address [0x1000] with two descriptors at [0x2000] and
    [0x2020] over a storage block at [0x8000], 1024 samples per buffer. *)
Definition session : N3Data :=
  mkN3Data false false 1024 2 0x500 7 0x8000 [0x2000; 0x2020].

Definition descriptors : gmap Z ndspWaveBuf :=
  <[0x2000 := mkWaveBuf 0x8000 0 NDSP_WBUF_DONE]>
    (<[0x2020 := mkWaveBuf 0x9000 0 NDSP_WBUF_DONE]> ∅).

Definition running : world :=
  mkWorld (<[0x1000 := session]> ∅) descriptors
          (mkSoloud 0x1000 (Some fn_n3ds_cleanup)) (Some 0x1000) [].

(** The same, with the quit flag already raised. *)
Definition quitting : world :=
  set_objs (<[0x1000 := set_done true session]> ∅) running.

(** No backend attached. *)
Definition fresh : world :=
  mkWorld ∅ ∅ (mkSoloud NULL None) None [].

Definition env : init_env := mkEnv 1 0x1000 0x8000 (Some 0x30) 7.

(** A session as an initialization with [aBuffer = 2^31] fills it in. *)
Definition huge_session : N3Data :=
  mkN3Data false false (2 ^ 31) 2 0x500 7 0x8000 [0x2000; 0x2020].

Definition huge : world :=
  set_objs (<[0x1000 := huge_session]> ∅) running.

(** The allocator has no memory to give. *)
Definition env_no_memory : init_env := mkEnv 1 0x1000 NULL (Some 0x30) 7.

End Sample.

(* ===================================================================== *)
(** ** Notions for the system-level properties *)
(* ===================================================================== *)

(** [keeps P m]: [P] survives [m], however [m] ends. *)
Definition keeps {A} (P : world -> Prop) (m : exec A) : Prop :=
  forall w, P w -> P (state_of (m w)).

(** The session behind [p] is in memory and its quit flag is raised. *)
Definition quit_raised (p : Z) (w : world) : Prop :=
  p <> NULL /\ exists d, objs w !! p = Some d /\ done d = true.

(** The session behind [p] is in memory, its descriptor array holds the two
    non-null pointers [b0] and [b1], both descriptors are in memory, and the
    callback context and the engine's handle, where set, are [p]. *)
Definition healthy (p b0 b1 : Z) (w : world) : Prop :=
  p <> NULL /\ b0 <> NULL /\ b1 <> NULL /\
  (exists d, objs w !! p = Some d /\ wavebufs d = [b0; b1]) /\
  is_Some (wbufs w !! b0) /\ is_Some (wbufs w !! b1) /\
  (ndsp_cb w = None \/ ndsp_cb w = Some p) /\
  (mBackendData (engine w) = NULL \/ mBackendData (engine w) = p).

(** A healthy session that is streaming: the quit flag is clear, no wake
    signal is pending, and NDSP has the callback registered on [p]. *)
Definition streaming (p b0 b1 : Z) (w : world) : Prop :=
  healthy p b0 b1 w /\ ndsp_cb w = Some p /\
  exists d, objs w !! p = Some d /\ done d = false /\ event d = false.

(** What one buffer completion sets off: the frame callback, the thread
    leaving its wait, and the next pass through the loop. *)
Definition cycle : list action := [FrameCallback; ThreadStep; ThreadStep].

Fixpoint cycles (n : nat) : list action :=
  match n with
  | O => []
  | S n' => cycle ++ cycles n'
  end.

(** The thread stands at a place the loop can be in: [buf_id] is 0 or 1
    and no fault has happened. *)
Definition in_loop (ts : tstate) : Prop :=
  match ts with
  | LoopHead b | Blocked b => b = 0 \/ b = 1
  | Returned => True
  | Aborted => False
  end.

(** The calls that publish a session or start its thread. *)
Definition is_publishing_call (c : call) : bool :=
  match c with
  | postinit_internal _ _ _ _ | ndspSetCallback _ | threadCreate _ _ _ _ _ => true
  | _ => false
  end.


(* ===================================================================== *)
(** ** Basic facts about the execution monad *)
(* ===================================================================== *)

Section Primitives.

Context {A B : Type}.

Lemma bind_Ok (m : exec A) (f : A -> exec B) w a w1 :
  m w = Ok a w1 -> (m ≫= f) w = f a w1.
Proof. intros H. unfold mbind, exec_bind. rewrite H. reflexivity. Qed.

Lemma bind_Fault (m : exec A) (f : A -> exec B) w w1 :
  m w = Fault w1 -> (m ≫= f) w = Fault w1.
Proof. intros H. unfold mbind, exec_bind. rewrite H. reflexivity. Qed.

Lemma bind_inv_Ok (m : exec A) (f : A -> exec B) w b w2 :
  (m ≫= f) w = Ok b w2 ->
  exists a w1, m w = Ok a w1 /\ f a w1 = Ok b w2.
Proof.
  unfold mbind, exec_bind. destruct (m w) as [a w1|w1]; intros H.
  - exists a, w1. split; [reflexivity | exact H].
  - discriminate H.
Qed.

Lemma bind_inv_Fault (m : exec A) (f : A -> exec B) w w2 :
  (m ≫= f) w = Fault w2 ->
  m w = Fault w2 \/ exists a w1, m w = Ok a w1 /\ f a w1 = Fault w2.
Proof.
  unfold mbind, exec_bind. destruct (m w) as [a w1|w1]; intros H.
  - right. exists a, w1. split; [reflexivity | exact H].
  - left. injection H as ->. reflexivity.
Qed.

End Primitives.

Lemma load_data_Ok p w d :
  p <> NULL -> objs w !! p = Some d -> load_data p w = Ok d w.
Proof.
  intros Hp Hd. unfold load_data.
  destruct (Z.eqb_spec p NULL) as [->|_]; [contradiction|].
  rewrite Hd. reflexivity.
Qed.

Lemma load_data_inv p w d w' :
  load_data p w = Ok d w' -> w' = w /\ p <> NULL /\ objs w !! p = Some d.
Proof.
  unfold load_data. destruct (Z.eqb_spec p NULL) as [->|Hp]; [discriminate|].
  destruct (objs w !! p) as [d0|] eqn:E; [|discriminate].
  intros H. injection H as -> ->. auto.
Qed.

Lemma load_data_Fault_inv p w w' : load_data p w = Fault w' -> w' = w.
Proof.
  unfold load_data. destruct (p =? NULL); [congruence|].
  destruct (objs w !! p); congruence.
Qed.

Lemma load_wb_Ok b w x :
  b <> NULL -> wbufs w !! b = Some x -> load_wb b w = Ok x w.
Proof.
  intros Hb Hx. unfold load_wb.
  destruct (Z.eqb_spec b NULL) as [->|_]; [contradiction|].
  rewrite Hx. reflexivity.
Qed.

Lemma load_wb_inv b w x w' :
  load_wb b w = Ok x w' -> w' = w /\ b <> NULL /\ wbufs w !! b = Some x.
Proof.
  unfold load_wb. destruct (Z.eqb_spec b NULL) as [->|Hb]; [discriminate|].
  destruct (wbufs w !! b) as [x0|] eqn:E; [|discriminate].
  intros H. injection H as -> ->. auto.
Qed.

Lemma load_wb_Fault_inv b w w' : load_wb b w = Fault w' -> w' = w.
Proof.
  unfold load_wb. destruct (b =? NULL); [congruence|].
  destruct (wbufs w !! b); congruence.
Qed.

(** A null pointer is never dereferenced successfully. *)
Lemma load_wb_NULL w : load_wb NULL w = Fault w.
Proof. reflexivity. Qed.

Lemma modify_data_Ok p f w d :
  p <> NULL -> objs w !! p = Some d ->
  modify_data p f w = Ok tt (set_objs (<[p := f d]> (objs w)) w).
Proof.
  intros Hp Hd. unfold modify_data.
  rewrite (bind_Ok _ _ w d w) by (apply load_data_Ok; assumption).
  reflexivity.
Qed.

Lemma modify_wb_Ok b f w x :
  b <> NULL -> wbufs w !! b = Some x ->
  modify_wb b f w = Ok tt (set_wbufs (<[b := f x]> (wbufs w)) w).
Proof.
  intros Hb Hx. unfold modify_wb.
  rewrite (bind_Ok _ _ w x w) by (apply load_wb_Ok; assumption).
  reflexivity.
Qed.

Lemma modify_wb_NULL f w : modify_wb NULL f w = Fault w.
Proof. reflexivity. Qed.

Lemma signal_event_Ok p w d :
  p <> NULL -> objs w !! p = Some d ->
  signal_event p w =
    Ok tt (mkWorld (<[p := set_event true d]> (objs w)) (wbufs w)
                   (engine w) (ndsp_cb w) (log w ++ [LightEvent_Signal p])).
Proof.
  intros Hp Hd. unfold signal_event.
  rewrite (bind_Ok _ _ _ _ _ (modify_data_Ok p _ w d Hp Hd)).
  reflexivity.
Qed.

(* ===================================================================== *)
(** ** The frame callback *)
(* ===================================================================== *)

(** C2. Every run of the frame callback on a live session either finds the
    quit flag raised and returns with the whole state as it was (no signal,
    nothing logged), or finds it clear and then does one thing: it sets the
    session's wake event, which is logged as one [LightEvent_Signal]; the
    other sessions, the descriptors, the engine and the registration stay as
    they were. *)
Theorem n3ds_audioCallback_effect (p : Z) (w : world) (d : N3Data) :
  p <> NULL ->
  objs w !! p = Some d ->
  (done d = true -> n3ds_audioCallback p w = Ok tt w) /\
  (done d = false ->
   n3ds_audioCallback p w =
     Ok tt (mkWorld (<[p := set_event true d]> (objs w)) (wbufs w)
                    (engine w) (ndsp_cb w)
                    (log w ++ [LightEvent_Signal p]))).
Proof.
  intros Hp Hd. unfold n3ds_audioCallback.
  rewrite (bind_Ok _ _ _ _ _ (load_data_Ok p w d Hp Hd)).
  split; intros Hdone; rewrite Hdone.
  - reflexivity.
  - apply signal_event_Ok; assumption.
Qed.

Lemma n3ds_audioCallback_effect_witness :
  n3ds_audioCallback 0x1000 Sample.quitting = Ok tt Sample.quitting /\
  n3ds_audioCallback 0x1000 Sample.running =
    Ok tt (mkWorld (<[0x1000 := set_event true Sample.session]>
                      (objs Sample.running))
                   (wbufs Sample.running) (engine Sample.running)
                   (ndsp_cb Sample.running)
                   (log Sample.running ++ [LightEvent_Signal 0x1000])).
Proof.
  split.
  - apply (n3ds_audioCallback_effect 0x1000 Sample.quitting
             (set_done true Sample.session)); [discriminate | reflexivity | reflexivity].
  - apply (n3ds_audioCallback_effect 0x1000 Sample.running Sample.session);
      [discriminate | reflexivity | reflexivity].
Defined.

(* ===================================================================== *)
(** ** Initialization: rejected configurations *)
(* ===================================================================== *)

(** C6. A call whose sample rate is not 44100 or whose channel count is not
    2 returns [INVALID_PARAMETER] and leaves the whole state as it was: no
    outside call is logged (no hardware operation, no allocation) and the
    engine object, the sessions and the callback registration are
    untouched. *)
Theorem n3ds_homebrew_init_invalid_parameter
    (aSoloud aFlags aSamplerate aBuffer aChannels : Z)
    (env : init_env) (w : world) :
  aSamplerate <> 44100 \/ aChannels <> 2 ->
  n3ds_homebrew_init aSoloud aFlags aSamplerate aBuffer aChannels env w
  = Ok INVALID_PARAMETER w.
Proof.
  intros H. unfold n3ds_homebrew_init.
  destruct (Z.eqb_spec aSamplerate 44100) as [Hr|Hr];
    destruct (Z.eqb_spec aChannels 2) as [Hc|Hc]; simpl; try reflexivity.
  destruct H; contradiction.
Qed.

Lemma n3ds_homebrew_init_invalid_parameter_witness :
  n3ds_homebrew_init 0x500 0 48000 1024 2 Sample.env Sample.running
  = Ok INVALID_PARAMETER Sample.running
  /\ n3ds_homebrew_init 0x500 0 44100 1024 1 Sample.env Sample.running
     = Ok INVALID_PARAMETER Sample.running.
Proof.
  split.
  - apply n3ds_homebrew_init_invalid_parameter. left. discriminate.
  - apply n3ds_homebrew_init_invalid_parameter. right. discriminate.
Defined.

(* ===================================================================== *)
(** ** Initialization: the priority of the audio thread *)
(* ===================================================================== *)

Lemma n3ds_thread_priority_cases (p : Z) :
  INT32_MIN < p <= INT32_MAX ->
  (p - 1 < 0x18 -> n3ds_thread_priority p = 0x18) /\
  (p - 1 > 0x3F -> n3ds_thread_priority p = 0x3F) /\
  (0x18 <= p - 1 <= 0x3F -> n3ds_thread_priority p = p - 1).
Proof.
  intros Hp. unfold n3ds_thread_priority.
  rewrite sint32_small by (unfold INT32_MIN, INT32_MAX in *; lia).
  repeat split; intros H.
  - destruct (Z.ltb_spec (p - 1) 0x18); [reflexivity | lia].
  - destruct (Z.ltb_spec (p - 1) 0x18); [lia|].
    destruct (Z.gtb_spec (p - 1) 0x3F); [reflexivity | lia].
  - destruct (Z.ltb_spec (p - 1) 0x18); [lia|].
    destruct (Z.gtb_spec (p - 1) 0x3F); [lia | reflexivity].
Qed.

(** C8. When [svcGetThreadPriority] reports the caller's priority [p], the
    spawning step of the initialization succeeds on a live session and makes
    exactly two outside calls, the query and one [threadCreate] whose
    priority argument is [p - 1] clamped into [0x18, 0x3F]: [0x18] when
    [p - 1] is below it, [0x3F] when [p - 1] is above it, [p - 1]
    otherwise.  [p] ranges over the [int32_t] values whose decrement is
    defined. *)
Theorem init_spawn_priority_clamped
    (data : Z) (env : init_env) (w : world) (d : N3Data) (p : Z) :
  data <> NULL ->
  objs w !! data = Some d ->
  svcGetThreadPriority_out env = Some p ->
  INT32_MIN < p <= INT32_MAX ->
  exists q w',
    init_spawn data env w = Ok SO_NO_ERROR w' /\
    log w' = log w ++ [svcGetThreadPriority;
                       threadCreate data (32 * 1024) q (-1) false] /\
    (p - 1 < 0x18 -> q = 0x18) /\
    (p - 1 > 0x3F -> q = 0x3F) /\
    (0x18 <= p - 1 <= 0x3F -> q = p - 1).
Proof.
  intros Hdata Hd Hq Hp.
  exists (n3ds_thread_priority p).
  unfold init_spawn. rewrite Hq. simpl default.
  eexists. split.
  - unfold emit, modify_world, mbind, exec_bind, mret, exec_ret.
    rewrite (modify_data_Ok data _ _ d Hdata) by exact Hd.
    reflexivity.
  - split.
    + simpl. rewrite <- app_assoc. reflexivity.
    + apply n3ds_thread_priority_cases. exact Hp.
Qed.

Lemma init_spawn_priority_clamped_witness :
  exists q w',
    init_spawn 0x1000 Sample.env Sample.running = Ok SO_NO_ERROR w' /\
    log w' = log Sample.running
               ++ [svcGetThreadPriority;
                   threadCreate 0x1000 (32 * 1024) q (-1) false] /\
    (0x30 - 1 < 0x18 -> q = 0x18) /\
    (0x30 - 1 > 0x3F -> q = 0x3F) /\
    (0x18 <= 0x30 - 1 <= 0x3F -> q = 0x30 - 1).
Proof.
  apply (init_spawn_priority_clamped 0x1000 Sample.env Sample.running
           Sample.session 0x30).
  - discriminate.
  - reflexivity.
  - reflexivity.
  - unfold INT32_MIN, INT32_MAX. lia.
Defined.

(** The three regimes, on concrete priorities. *)
Example n3ds_thread_priority_samples :
  map n3ds_thread_priority [0; 0x18; 0x19; 0x30; 0x3F; 0x40; 0x41; 1000]
  = [0x18; 0x18; 0x18; 0x2F; 0x3E; 0x3F; 0x3F; 0x3F].
Proof. reflexivity. Qed.

(* ===================================================================== *)
(** ** Teardown *)
(* ===================================================================== *)

Lemma cleanup_signal_Ok p w d :
  p <> NULL -> objs w !! p = Some d ->
  cleanup_signal p w =
    Ok tt (mkWorld (<[p := set_event true (set_done true d)]> (objs w))
                   (wbufs w) (engine w) (ndsp_cb w)
                   (log w ++ [atomic_store_done p; LightEvent_Signal p])).
Proof.
  intros Hp Hd. unfold cleanup_signal.
  rewrite (bind_Ok _ _ _ _ _ (modify_data_Ok p _ w d Hp Hd)).
  unfold emit at 1. unfold modify_world at 1.
  erewrite bind_Ok by reflexivity.
  erewrite signal_event_Ok; [| exact Hp | apply lookup_insert_eq ].
  cbn. rewrite insert_insert_eq. rewrite <- app_assoc. reflexivity.
Qed.

(** [free] of the member array does not return, wherever it is called. *)
Lemma free_member_array_stops p w :
  free_member_array p w
  = Fault (set_log (log w ++ [free_wavebufs_member p]) w).
Proof. reflexivity. Qed.

(** On a session in memory, lines 88-98 join the thread and then stop in
    the first [free]; the record, the descriptors, the engine object and
    the callback registration are as they were. *)
Lemma cleanup_release_stops p w d :
  p <> NULL -> objs w !! p = Some d ->
  cleanup_release p w =
    Fault (set_log (log w ++ [threadJoin (tid d) UINT64_MAX;
                              free_wavebufs_member p]) w).
Proof.
  intros Hp Hd. unfold cleanup_release.
  rewrite (bind_Ok _ _ _ _ _ (load_data_Ok p w d Hp Hd)).
  unfold emit at 1. unfold modify_world at 1.
  erewrite bind_Ok by reflexivity.
  erewrite bind_Fault by apply free_member_array_stops.
  unfold set_log. cbn. rewrite <- app_assoc. reflexivity.
Qed.

(** Lines 88-98 never run to their end. *)
Lemma cleanup_release_never_returns p w w' : cleanup_release p w <> Ok tt w'.
Proof.
  intros H. pose proof H as H0. unfold cleanup_release in H0.
  apply bind_inv_Ok in H0 as (d & w1 & Hload & _).
  apply load_data_inv in Hload as (-> & Hp & Hd).
  rewrite (cleanup_release_stops p w d Hp Hd) in H. discriminate H.
Qed.

(** The teardown of an attached session, up to where it stops. *)
Lemma n3ds_cleanup_stops (w : world) (p : Z) (d : N3Data) :
  mBackendData (engine w) = p ->
  p <> NULL ->
  objs w !! p = Some d ->
  n3ds_cleanup w =
    Fault (mkWorld (<[p := set_event true (set_done true d)]> (objs w))
                   (wbufs w) (engine w) (ndsp_cb w)
                   (log w ++ [atomic_store_done p; LightEvent_Signal p;
                              threadJoin (tid d) UINT64_MAX;
                              free_wavebufs_member p])).
Proof.
  intros He Hp Hd.
  unfold n3ds_cleanup, get_engine.
  unfold mbind at 1. unfold exec_bind at 1.
  rewrite He. destruct (Z.eqb_spec p NULL) as [E|_]; [contradiction|].
  rewrite (bind_Ok _ _ _ _ _ (cleanup_signal_Ok p w d Hp Hd)).
  erewrite cleanup_release_stops; [| exact Hp | apply lookup_insert_eq].
  unfold set_log. cbn. rewrite <- app_assoc. reflexivity.
Qed.

(** With no session attached the teardown returns at its first test. *)
Lemma n3ds_cleanup_no_session (w : world) :
  mBackendData (engine w) = NULL -> n3ds_cleanup w = Ok tt w.
Proof.
  intros He. unfold n3ds_cleanup, get_engine, mbind, exec_bind.
  rewrite He. reflexivity.
Qed.




(** C7. A teardown of an attached session does not get to clear the
    engine's handle: after the flag, the signal and the join it stops in
    [free(data->wavebufs)], with the session record still in memory and the
    handle still on it.  There is no state after a first call in which a
    second call could find the handle null. *)
Theorem n3ds_cleanup_stops_before_clearing (w : world) (p : Z) (d : N3Data) :
  mBackendData (engine w) = p ->
  p <> NULL ->
  objs w !! p = Some d ->
  exists w',
    n3ds_cleanup w = Fault w' /\
    log w' = log w ++ [atomic_store_done p; LightEvent_Signal p;
                       threadJoin (tid d) UINT64_MAX;
                       free_wavebufs_member p] /\
    mBackendData (engine w') = p /\
    objs w' !! p = Some (set_event true (set_done true d)).
Proof.
  intros He Hp Hd.
  rewrite (n3ds_cleanup_stops w p d He Hp Hd).
  eexists. split; [reflexivity|]. split; [reflexivity|].
  split; [exact He | apply lookup_insert_eq].
Qed.

Lemma n3ds_cleanup_stops_before_clearing_witness :
  exists w',
    n3ds_cleanup Sample.running = Fault w' /\
    log w' = log Sample.running
             ++ [atomic_store_done 0x1000; LightEvent_Signal 0x1000;
                 threadJoin 7 UINT64_MAX;
                 free_wavebufs_member 0x1000] /\
    mBackendData (engine w') = 0x1000 /\
    objs w' !! 0x1000 = Some (set_event true (set_done true Sample.session)).
Proof.
  apply (n3ds_cleanup_stops_before_clearing Sample.running 0x1000
           Sample.session); first [discriminate | reflexivity].
Defined.

(** The guard of line 79 on its own: without a session, any number of
    teardowns leave the state as it is. *)
Example n3ds_cleanup_twice_without_session :
  (n3ds_cleanup;; n3ds_cleanup) Sample.fresh = Ok tt Sample.fresh.
Proof. reflexivity. Qed.

(* ===================================================================== *)
(** ** One pass through the loop body *)
(* ===================================================================== *)

Lemma index_Ok (a : list Z) i x w :
  0 <= i -> a !! Z.to_nat i = Some x -> index a i w = Ok x w.
Proof.
  intros Hi Hx. unfold index.
  destruct (Z.ltb_spec i 0); [lia|]. rewrite Hx. reflexivity.
Qed.

Lemma index_inv (a : list Z) i x w w' :
  index a i w = Ok x w' -> w' = w /\ 0 <= i /\ a !! Z.to_nat i = Some x.
Proof.
  unfold index. destruct (Z.ltb_spec i 0); [discriminate|].
  destruct (a !! Z.to_nat i) as [y|] eqn:E; [|discriminate].
  intros H0. injection H0 as -> ->. auto.
Qed.

Lemma index_Fault_inv (a : list Z) i w w' : index a i w = Fault w' -> w' = w.
Proof.
  unfold index. destruct (i <? 0); [intros H; injection H as <-; reflexivity|].
  destruct (a !! Z.to_nat i); [discriminate|].
  intros H; injection H as <-; reflexivity.
Qed.

Lemma n3ds_thread_body_Ok p b w d buffer wb :
  p <> NULL -> objs w !! p = Some d ->
  0 <= b -> wavebufs d !! Z.to_nat b = Some buffer ->
  buffer <> NULL -> wbufs w !! buffer = Some wb ->
  n3ds_thread_body p b w = Ok (Z.lxor b 1) (body_result b w d buffer wb).
Proof.
  intros Hp Hd Hb Hbuf Hn Hwb. unfold n3ds_thread_body.
  rewrite (bind_Ok _ _ _ _ _ (load_data_Ok p w d Hp Hd)).
  rewrite (bind_Ok _ _ _ _ _ (index_Ok _ b buffer w Hb Hbuf)).
  rewrite (bind_Ok _ _ _ _ _ (load_wb_Ok buffer w wb Hn Hwb)).
  unfold emit at 1. unfold modify_world at 1.
  erewrite bind_Ok by reflexivity.
  erewrite bind_Ok by (apply modify_wb_Ok; [exact Hn | exact Hwb]).
  unfold emit at 1. unfold modify_world at 1.
  erewrite bind_Ok by reflexivity.
  erewrite bind_Ok by (apply load_wb_Ok; [exact Hn | apply lookup_insert_eq]).
  unfold emit, modify_world, mbind, exec_bind, mret, exec_ret, body_result.
  cbn. repeat rewrite <- app_assoc. reflexivity.
Qed.

Lemma n3ds_thread_body_inv p b w b' w' :
  n3ds_thread_body p b w = Ok b' w' ->
  exists d buffer wb,
    p <> NULL /\ objs w !! p = Some d /\
    0 <= b /\ wavebufs d !! Z.to_nat b = Some buffer /\
    buffer <> NULL /\ wbufs w !! buffer = Some wb /\
    b' = Z.lxor b 1 /\ w' = body_result b w d buffer wb.
Proof.
  intros H. pose proof H as H0. unfold n3ds_thread_body in H0.
  apply bind_inv_Ok in H0 as (d & w1 & Hl & H0).
  apply load_data_inv in Hl as (-> & Hp & Hd).
  apply bind_inv_Ok in H0 as (buffer & w1 & Hi & H0).
  apply index_inv in Hi as (-> & Hb & Hbuf).
  apply bind_inv_Ok in H0 as (wb & w1 & Hw & _).
  apply load_wb_inv in Hw as (-> & Hn & Hwb).
  rewrite (n3ds_thread_body_Ok p b w d buffer wb) in H by assumption.
  injection H as <- <-.
  exists d, buffer, wb. repeat split; assumption.
Qed.

(** The body can only stop at one of its first three reads, before it has
    called anything. *)
Lemma n3ds_thread_body_Fault_inv p b w w' :
  n3ds_thread_body p b w = Fault w' -> w' = w.
Proof.
  intros H. pose proof H as H0. unfold n3ds_thread_body in H0.
  apply bind_inv_Fault in H0 as [Hf|(d & w1 & Hl & H0)].
  { apply (load_data_Fault_inv _ _ _ Hf). }
  apply load_data_inv in Hl as (-> & Hp & Hd).
  apply bind_inv_Fault in H0 as [Hf|(buffer & w1 & Hi & H0)].
  { apply (index_Fault_inv _ _ _ _ Hf). }
  apply index_inv in Hi as (-> & Hb & Hbuf).
  apply bind_inv_Fault in H0 as [Hf|(wb & w1 & Hw & _)].
  { apply (load_wb_Fault_inv _ _ _ Hf). }
  apply load_wb_inv in Hw as (-> & Hn & Hwb).
  rewrite (n3ds_thread_body_Ok p b w d buffer wb) in H by assumption.
  discriminate H.
Qed.

(** C5 (as amended). Every pass through the loop body that runs to its end
    makes exactly three outside calls, in this order: the render into the
    buffer, the submission of the descriptor to the hardware queue, and the
    cache flush of the same buffer address.  The flush comes after the
    render and after the submission. *)
Theorem n3ds_thread_body_call_order (p b : Z) (w : world) (b' : Z) (w' : world) :
  n3ds_thread_body p b w = Ok b' w' ->
  exists eng dst n buffer size,
    log w' = log w ++ [mixSigned16 eng dst n;
                       ndspChnWaveBufAdd 0 b buffer;
                       DSP_FlushDataCache dst size].
Proof.
  intros H.
  apply n3ds_thread_body_inv in H
    as (d & buffer & wb & _ & _ & _ & _ & _ & _ & _ & ->).
  exists (soloud d), (data_vaddr wb), (samplesPerWavebuf d), buffer.
  eexists. reflexivity.
Qed.

Lemma n3ds_thread_body_call_order_witness :
  exists w',
    n3ds_thread_body 0x1000 0 Sample.running = Ok 1 w' /\
    exists eng dst n buffer size,
      log w' = log Sample.running ++ [mixSigned16 eng dst n;
                                      ndspChnWaveBufAdd 0 0 buffer;
                                      DSP_FlushDataCache dst size].
Proof.
  assert (H : n3ds_thread_body 0x1000 0 Sample.running
              = Ok 1 (body_result 0 Sample.running Sample.session 0x2000
                        (mkWaveBuf 0x8000 0 NDSP_WBUF_DONE))).
  { apply (n3ds_thread_body_Ok 0x1000 0 Sample.running Sample.session 0x2000
             (mkWaveBuf 0x8000 0 NDSP_WBUF_DONE));
      first [discriminate | reflexivity | lia]. }
  eexists. split; [exact H|].
  apply (n3ds_thread_body_call_order 0x1000 0 Sample.running 1). exact H.
Defined.

(** C5, the claim as stated fails: on the first pass on the sample session
    the three calls are render, submit, flush; the submission is the second
    call and the flush of the rendered buffer the third, so the flush does
    not come before the submission. *)
Lemma n3ds_thread_body_flush_after_submit :
  log (state_of (n3ds_thread_body 0x1000 0 Sample.running))
  = [mixSigned16 0x500 0x8000 1024;
     ndspChnWaveBufAdd 0 0 0x2000;
     DSP_FlushDataCache 0x8000 4096]
  /\ log (state_of (n3ds_thread_body 0x1000 0 Sample.running)) !! 1%nat
     = Some (ndspChnWaveBufAdd 0 0 0x2000)
  /\ log (state_of (n3ds_thread_body 0x1000 0 Sample.running)) !! 2%nat
     = Some (DSP_FlushDataCache 0x8000 4096).
Proof. split; [reflexivity|]. split; reflexivity. Qed.

(** C9 (as amended). On a session with two channels and [N] samples per
    buffer, where [N * 2 * 2] fits the 32-bit byte count, every pass through
    the loop body on an index with a descriptor in memory runs to its end,
    asks the mixer for exactly [N] samples per channel, leaves [N] in the
    sample count of the submitted descriptor, and flushes exactly
    [N * 2 * 2] bytes. *)
Theorem n3ds_thread_body_counts
    (p b : Z) (w : world) (d : N3Data) (buffer : Z) (wb : ndspWaveBuf) (N : Z) :
  p <> NULL -> objs w !! p = Some d ->
  samplesPerWavebuf d = N -> numChannels d = 2 ->
  0 <= N -> N * 2 * 2 < 2 ^ 32 ->
  0 <= b -> wavebufs d !! Z.to_nat b = Some buffer ->
  buffer <> NULL -> wbufs w !! buffer = Some wb ->
  exists w',
    n3ds_thread_body p b w = Ok (Z.lxor b 1) w' /\
    log w' = log w ++ [mixSigned16 (soloud d) (data_vaddr wb) N;
                       ndspChnWaveBufAdd 0 b buffer;
                       DSP_FlushDataCache (data_vaddr wb) (N * 2 * 2)] /\
    nsamples <$> (wbufs w' !! buffer) = Some N.
Proof.
  intros Hp Hd HN Hc HN0 HN1 Hb Hbuf Hn Hwb.
  exists (body_result b w d buffer wb).
  split; [apply n3ds_thread_body_Ok; assumption|].
  unfold body_result; cbn [log wbufs]. rewrite HN, Hc. split.
  - unfold sizeof_int16.
    rewrite (wrap32_small (N * 2)) by lia.
    rewrite (wrap32_small (N * 2 * 2)) by lia.
    reflexivity.
  - rewrite lookup_insert_eq. reflexivity.
Qed.

Lemma n3ds_thread_body_counts_witness :
  exists w',
    n3ds_thread_body 0x1000 1 Sample.running = Ok (Z.lxor 1 1) w' /\
    log w' = log Sample.running
             ++ [mixSigned16 0x500 0x9000 1024;
                 ndspChnWaveBufAdd 0 1 0x2020;
                 DSP_FlushDataCache 0x9000 (1024 * 2 * 2)] /\
    nsamples <$> (wbufs w' !! 0x2020) = Some 1024.
Proof.
  apply (n3ds_thread_body_counts 0x1000 1 Sample.running Sample.session 0x2020
           (mkWaveBuf 0x9000 0 NDSP_WBUF_DONE) 1024);
    first [discriminate | reflexivity | lia].
Defined.

(** C9, the claim as stated fails: with [N = 2^31] samples per buffer and
    two channels, a pass renders [N] samples and stores [N] in the
    descriptor, but the byte count handed to the flush has wrapped to 0,
    not [N * 2 * 2]. *)
Lemma n3ds_thread_body_flush_wraps :
  samplesPerWavebuf Sample.huge_session = 2 ^ 31 /\
  numChannels Sample.huge_session = 2 /\
  log (state_of (n3ds_thread_body 0x1000 0 Sample.huge))
  = [mixSigned16 0x500 0x8000 (2 ^ 31);
     ndspChnWaveBufAdd 0 0 0x2000;
     DSP_FlushDataCache 0x8000 0] /\
  0 <> 2 ^ 31 * 2 * 2.
Proof.
  split; [reflexivity|]. split; [reflexivity|].
  split; [reflexivity | discriminate].
Qed.

(* ===================================================================== *)
(** ** The lifetime of the producer loop *)
(* ===================================================================== *)

Lemma submitted_app l1 l2 : submitted (l1 ++ l2) = submitted l1 ++ submitted l2.
Proof.
  induction l1 as [|c l1 IH]; [reflexivity|].
  destruct c; simpl; rewrite IH; reflexivity.
Qed.

Lemma lxor_1_1 s : Z.lxor (Z.lxor s 1) 1 = s.
Proof. rewrite Z.lxor_assoc. simpl. apply Z.lxor_0_r. Qed.

Lemma alternating_snoc s n :
  alternating s (S n)
  = alternating s n ++ [if Nat.even n then s else Z.lxor s 1].
Proof.
  revert s. induction n as [|n IH]; intros s; [reflexivity|].
  change (alternating s (S (S n))) with (s :: alternating (Z.lxor s 1) (S n)).
  rewrite IH. change (alternating s (S n)) with (s :: alternating (Z.lxor s 1) n).
  rewrite lxor_1_1. rewrite Nat.even_succ, <- Nat.negb_even.
  destruct (Nat.even n); reflexivity.
Qed.

Lemma alternating_length s n : length (alternating s n) = n.
Proof.
  revert s; induction n as [|n IH]; intros s; simpl; [|rewrite IH]; reflexivity.
Qed.

Lemma nth_index_succ n : Z.lxor (nth_index n) 1 = nth_index (S n).
Proof.
  unfold nth_index. rewrite Nat.even_succ, <- Nat.negb_even.
  destruct (Nat.even n); reflexivity.
Qed.

Lemma nth_index_mod n : nth_index n = Z.of_nat n mod 2.
Proof.
  unfold nth_index. destruct (Nat.even n) eqn:E.
  - apply Nat.even_spec in E as [m ->].
    rewrite Nat2Z.inj_mul, Z.mul_comm, Z_mod_mult. reflexivity.
  - assert (O : Nat.odd n = true) by (rewrite <- Nat.negb_even, E; reflexivity).
    apply Nat.odd_spec in O as [m ->].
    rewrite Nat2Z.inj_add, Nat2Z.inj_mul.
    rewrite Z.add_comm, Z.mul_comm, Z_mod_plus_full. reflexivity.
Qed.

Lemma alternating_lookup n k i :
  alternating 0 n !! k = Some i -> i = nth_index k.
Proof.
  revert k i. induction n as [|n IH]; intros k i; [discriminate|].
  rewrite alternating_snoc. intros H.
  apply lookup_app_Some in H as [H|[Hlen H]].
  - apply (IH _ _ H).
  - rewrite alternating_length in *.
    destruct (k - n)%nat as [|m] eqn:E; [|discriminate].
    assert (k = n) by lia. subst k. injection H as <-. reflexivity.
Qed.

Section Quiet.

Context {A B : Type}.

Lemma quiet_ret (a : A) : quiet (mret a).
Proof.
  intros w. exists []. split; [symmetry; apply app_nil_r | reflexivity].
Qed.

Lemma quiet_bind (m : exec A) (f : A -> exec B) :
  quiet m -> (forall a, quiet (f a)) -> quiet (m ≫= f).
Proof.
  intros Hm Hf w. destruct (Hm w) as (l1 & E1 & S1).
  unfold mbind, exec_bind. destruct (m w) as [a w1|w1]; simpl in E1.
  - destruct (Hf a w1) as (l2 & E2 & S2).
    exists (l1 ++ l2). rewrite E2, E1, app_assoc, submitted_app, S1, S2.
    split; reflexivity.
  - exists l1. split; assumption.
Qed.

End Quiet.

Lemma quiet_load_data p : quiet (load_data p).
Proof.
  intros w. exists []. split; [|reflexivity]. rewrite app_nil_r.
  unfold load_data. destruct (p =? NULL); [reflexivity|].
  destruct (objs w !! p); reflexivity.
Qed.

Lemma quiet_modify_world f :
  (forall w, log (f w) = log w) -> quiet (modify_world f).
Proof.
  intros H w. exists []. split; [|reflexivity].
  rewrite app_nil_r. apply H.
Qed.

Lemma quiet_modify_data p f : quiet (modify_data p f).
Proof.
  apply quiet_bind; [apply quiet_load_data|].
  intros d. apply quiet_modify_world. reflexivity.
Qed.

Lemma quiet_emit c :
  (forall ch i b, c <> ndspChnWaveBufAdd ch i b) -> quiet (emit c).
Proof.
  intros H w. exists [c]. split; [reflexivity|].
  destruct c; try reflexivity. exfalso. eapply H. reflexivity.
Qed.

Lemma quiet_signal_event p : quiet (signal_event p).
Proof.
  apply quiet_bind; [apply quiet_modify_data|].
  intros _. apply quiet_emit. discriminate.
Qed.

Lemma quiet_n3ds_audioCallback p : quiet (n3ds_audioCallback p).
Proof.
  apply quiet_bind; [apply quiet_load_data|].
  intros d. destruct (done d); [apply quiet_ret | apply quiet_signal_event].
Qed.

Lemma quiet_cleanup_signal p : quiet (cleanup_signal p).
Proof.
  apply quiet_bind; [apply quiet_modify_data|]. intros _.
  apply quiet_bind; [apply quiet_emit; discriminate|]. intros _.
  apply quiet_signal_event.
Qed.

Lemma quiet_request_shutdown : quiet request_shutdown.
Proof.
  apply quiet_bind.
  - intros w. exists []. split; [symmetry; apply app_nil_r | reflexivity].
  - intros e. destruct (mBackendData e =? NULL);
      [apply quiet_ret | apply quiet_cleanup_signal].
Qed.

Lemma inv_quiet w0 w ts w' :
  inv w0 (w, ts) ->
  (exists l, log w' = log w ++ l /\ submitted l = []) ->
  inv w0 (w', ts).
Proof.
  intros (new & E & S & B) (l & El & Sl). exists (new ++ l). simpl in *.
  rewrite El, E, app_assoc, submitted_app, Sl, app_nil_r.
  repeat split; assumption.
Qed.

Lemma inv_stop w0 w ts w' ts' :
  inv w0 (w, ts) -> log w' = log w ->
  match ts' with Returned | Aborted => True | _ => False end ->
  inv w0 (w', ts').
Proof.
  intros (new & E & S & B) El Ht. exists new. simpl in *.
  rewrite El. split; [exact E|]. split; [exact S|].
  destruct ts'; tauto.
Qed.

Lemma inv_lift_env w0 m s :
  quiet m -> inv w0 s -> inv w0 (lift_env m s).
Proof.
  intros Hq Hi. destruct s as [w ts]. unfold lift_env. simpl.
  pose proof (Hq w) as (l & El & Sl).
  destruct (m w) as [[] w'|w']; simpl in El.
  - apply (inv_quiet w0 w ts w' Hi). exists l. split; assumption.
  - destruct Hi as (new & E & S & B). exists (new ++ l). simpl in *.
    rewrite El, E, app_assoc, submitted_app, Sl, app_nil_r.
    repeat split; assumption.
Qed.

Lemma inv_n3ds_thread_step w0 p s : inv w0 s -> inv w0 (n3ds_thread_step p s).
Proof.
  intros Hi. destruct s as [w ts]. unfold n3ds_thread_step. cbn [fst snd].
  destruct ts as [b|b| |]; try exact Hi.
  - destruct (load_data p w) as [d w1|w1] eqn:Hl.
    2:{ apply load_data_Fault_inv in Hl as ->.
        apply (inv_stop w0 w (LoopHead b)); [exact Hi | reflexivity | exact I]. }
    apply load_data_inv in Hl as (-> & Hp & Hd).
    destruct (done d).
    { apply (inv_stop w0 w (LoopHead b)); [exact Hi | reflexivity | exact I]. }
    unfold mbind at 1. unfold exec_bind at 1.
    destruct (n3ds_thread_body p b w) as [b' w'|w'] eqn:Hb.
    + apply n3ds_thread_body_inv in Hb
        as (d' & buffer & wb & _ & _ & _ & _ & _ & _ & -> & ->).
      destruct Hi as (new & E & S & B). cbn in E, B.
      unfold emit, modify_world, mbind, exec_bind, mret, exec_ret, body_result.
      cbn [fst snd log set_log].
      eexists (new ++ [_; _; _; _]). cbn [fst snd log].
      split; [rewrite E, <- !app_assoc; reflexivity|].
      rewrite submitted_app. cbn [submitted].
      rewrite length_app. cbn [length]. rewrite Nat.add_1_r.
      split.
      * rewrite alternating_snoc, <- S. subst b. reflexivity.
      * subst b. apply nth_index_succ.
    + apply n3ds_thread_body_Fault_inv in Hb as ->.
      apply (inv_stop w0 w (LoopHead b)); [exact Hi | reflexivity | exact I].
  - destruct (load_data p w) as [d w1|w1] eqn:Hl.
    2:{ apply load_data_Fault_inv in Hl as ->.
        apply (inv_stop w0 w (Blocked b)); [exact Hi | reflexivity | exact I]. }
    apply load_data_inv in Hl as (-> & Hp & Hd).
    destruct (event d); [|exact Hi].
    rewrite (modify_data_Ok p _ w d Hp Hd).
    apply (inv_quiet w0 w _ _ Hi). exists []. split; [|reflexivity].
    cbn. symmetry. apply app_nil_r.
Qed.

Lemma inv_sys_step w0 p a s : inv w0 s -> inv w0 (sys_step p a s).
Proof.
  intros Hi. unfold sys_step.
  destruct (snd s) eqn:Ets; try exact Hi.
  all: destruct a;
    [ apply inv_n3ds_thread_step; exact Hi
    | destruct (ndsp_cb (fst s));
        [apply inv_lift_env; [apply quiet_n3ds_audioCallback | exact Hi]
        | exact Hi]
    | apply inv_lift_env; [apply quiet_request_shutdown | exact Hi] ].
Qed.

Lemma inv_sys_run w0 p sched s : inv w0 s -> inv w0 (sys_run p sched s).
Proof.
  revert s. induction sched as [|a sched IH]; intros s Hi; [exact Hi|].
  apply IH. apply inv_sys_step. exact Hi.
Qed.

Lemma inv_start w0 : inv w0 (w0, n3ds_thread_start).
Proof.
  exists []. split; [symmetry; apply app_nil_r|]. split; reflexivity.
Qed.

(** C1. From the start of [n3ds_thread] on, under every interleaving of
    thread moves, frame callbacks and shutdown requests, the buffer indices
    handed to the hardware queue since the start form the sequence
    0,1,0,1,...: the [k]-th submission (from 0) uses index [k mod 2], so
    the first uses 0 and no two consecutive submissions use the same
    index. *)
Theorem n3ds_thread_submissions_alternate
    (p : Z) (sched : list action) (w0 : world) :
  exists new,
    log (fst (sys_run p sched (w0, n3ds_thread_start))) = log w0 ++ new /\
    submitted new = alternating 0 (length (submitted new)) /\
    (forall k i, submitted new !! k = Some i -> i = Z.of_nat k mod 2) /\
    (forall k i j, submitted new !! k = Some i ->
                   submitted new !! S k = Some j -> i <> j).
Proof.
  destruct (inv_sys_run w0 p sched _ (inv_start w0)) as (new & E & S & _).
  exists new. split; [exact E|]. split; [exact S|].
  assert (L : forall k i, submitted new !! k = Some i -> i = nth_index k).
  { intros k i H. rewrite S in H. apply (alternating_lookup _ _ _ H). }
  split.
  - intros k i H. rewrite <- nth_index_mod. apply (L _ _ H).
  - intros k i j Hi Hj. apply L in Hi, Hj. subst i j.
    rewrite <- nth_index_succ. unfold nth_index.
    destruct (Nat.even k); discriminate.
Qed.

(** A run on the sample session in which the hardware completes two buffers
    and the thread submits three. *)
Example n3ds_thread_three_submissions :
  submitted
    (log (fst (sys_run 0x1000
                 [ThreadStep; FrameCallback; ThreadStep; ThreadStep;
                  FrameCallback; ThreadStep; ThreadStep]
                 (Sample.running, n3ds_thread_start))))
  = [0; 1; 0].
Proof. reflexivity. Qed.

(** After a shutdown request the thread leaves the loop at its next test
    and submits nothing more. *)
Example n3ds_thread_shutdown_run :
  let s := sys_run 0x1000
             [ThreadStep; FrameCallback; ThreadStep; ThreadStep;
              RequestShutdown; ThreadStep; ThreadStep; ThreadStep]
             (Sample.running, n3ds_thread_start) in
  snd s = Returned /\ submitted (log (fst s)) = [0; 1].
Proof. split; reflexivity. Qed.

(* ===================================================================== *)
(** ** Initialization: the session and its descriptors *)
(* ===================================================================== *)

Lemma emit_bind {B} c (f : unit -> exec B) w :
  (emit c ≫= f) w = f tt (set_log (log w ++ [c]) w).
Proof. reflexivity. Qed.

Lemma bind_assoc {A B C} (m : exec A) (f : A -> exec B) (g : B -> exec C) w :
  ((m ≫= f) ≫= g) w = (m ≫= fun a => f a ≫= g) w.
Proof. unfold mbind, exec_bind. destruct (m w); reflexivity. Qed.

Lemma modify_world_bind {B} g (f : unit -> exec B) w :
  (modify_world g ≫= f) w = f tt (g w).
Proof. reflexivity. Qed.

(** With a record from [new], the session step fills the record in and
    then stops at the first store of the loop, [waveBuf->data_vaddr =
    myBuffer], because [waveBuf] is the null pointer [memset] left in
    [wavebufs[0]]. *)
Lemma init_session_stops aSoloud aBuffer aChannels env w :
  new_ret env <> NULL ->
  init_session aSoloud aBuffer aChannels env w =
    Fault (mkWorld
             (<[new_ret env := session_at_line_157 aSoloud aBuffer aChannels env]>
                (objs w))
             (wbufs w) (engine w) (ndsp_cb w)
             (log w ++ [new_N3Data (new_ret env);
                        linearAlloc
                          (wrap32 (wrap32 (wrap32 (aChannels * aBuffer)
                                           * sizeof_int16) * 2))])).
Proof.
  intros Hp. unfold init_session.
  rewrite emit_bind, modify_world_bind, emit_bind.
  erewrite bind_Ok by (apply modify_data_Ok; [exact Hp | apply lookup_insert_eq]).
  erewrite bind_Ok by (apply modify_data_Ok; [exact Hp | apply lookup_insert_eq]).
  erewrite bind_Ok by (apply modify_data_Ok; [exact Hp | apply lookup_insert_eq]).
  erewrite bind_Ok by (apply modify_data_Ok; [exact Hp | apply lookup_insert_eq]).
  erewrite bind_Ok by (apply load_data_Ok; [exact Hp | apply lookup_insert_eq]).
  cbn. rewrite !insert_insert_eq, <- app_assoc. reflexivity.
Qed.

(** Whatever [new] and [linearAlloc] hand back, the session step does not
    finish, and up to where it stops it has made the same two calls and
    touched neither the descriptors, nor the engine, nor the callback
    registration. *)
Lemma init_session_never_finishes aSoloud aBuffer aChannels env w :
  exists w',
    init_session aSoloud aBuffer aChannels env w = Fault w' /\
    log w' = log w ++ [new_N3Data (new_ret env);
                       linearAlloc
                         (wrap32 (wrap32 (wrap32 (aChannels * aBuffer)
                                          * sizeof_int16) * 2))] /\
    wbufs w' = wbufs w /\ engine w' = engine w /\ ndsp_cb w' = ndsp_cb w.
Proof.
  destruct (Z.eq_dec (new_ret env) NULL) as [E|E].
  - unfold init_session. rewrite E. eexists. split.
    + rewrite emit_bind, modify_world_bind, emit_bind. reflexivity.
    + cbn. rewrite <- app_assoc. repeat split; reflexivity.
  - rewrite (init_session_stops _ _ _ _ _ E). eexists. split; [reflexivity|].
    repeat split; reflexivity.
Qed.

(** The entry point in the supported configuration, up to the session
    step. *)
Lemma n3ds_homebrew_init_supported aSoloud aFlags aBuffer env w :
  ndspInit_ret env <> 0 ->
  n3ds_homebrew_init aSoloud aFlags 44100 aBuffer 2 env w =
    (data ← init_session aSoloud aBuffer 2 env;
     init_publish data aFlags 44100 2;;
     init_spawn data env)
      (set_log (log w ++ [ndspInit;
                          ndspChnReset 0;
                          ndspSetOutputMode NDSP_OUTPUT_STEREO;
                          ndspChnSetInterp 0 NDSP_INTERP_POLYPHASE;
                          ndspChnSetRate 0 44100;
                          ndspChnSetFormat 0 NDSP_FORMAT_STEREO_PCM16]) w).
Proof.
  intros Hr. unfold n3ds_homebrew_init. cbn [Z.eqb Pos.eqb negb orb].
  rewrite emit_bind.
  destruct (Z.eqb_spec (ndspInit_ret env) 0) as [E|_]; [contradiction|].
  unfold init_channel. repeat (rewrite bind_assoc || rewrite emit_bind).
  unfold set_log. cbn [log objs wbufs engine ndsp_cb].
  rewrite <- !app_assoc. reflexivity.
Qed.

(** C4. In the supported configuration, once [ndspInit] has reported a
    nonzero value, the initialization never comes to hold two descriptors:
    the two entries of the session's descriptor array are the null pointers
    [memset] left there, the call stops at the first store through one of
    them, no descriptor in memory has been written, and the session has not
    been attached to the engine. *)
Theorem n3ds_homebrew_init_descriptors_null
    (aSoloud aFlags aBuffer : Z) (env : init_env) (w : world) :
  ndspInit_ret env <> 0 ->
  new_ret env <> NULL ->
  exists w',
    n3ds_homebrew_init aSoloud aFlags 44100 aBuffer 2 env w = Fault w' /\
    objs w' !! new_ret env
    = Some (mkN3Data false false aBuffer 2 aSoloud 0 (linearAlloc_ret env)
                     [NULL; NULL]) /\
    wbufs w' = wbufs w /\
    engine w' = engine w.
Proof.
  intros Hr Hp.
  rewrite (n3ds_homebrew_init_supported _ _ _ _ _ Hr).
  erewrite bind_Fault by (apply init_session_stops; exact Hp).
  eexists. split; [reflexivity|]. cbn.
  split; [apply lookup_insert_eq|]. repeat split; reflexivity.
Qed.

Lemma n3ds_homebrew_init_descriptors_null_witness :
  exists w',
    n3ds_homebrew_init 0x500 0 44100 1024 2 Sample.env Sample.fresh
    = Fault w' /\
    objs w' !! 0x1000
    = Some (mkN3Data false false 1024 2 0x500 0 0x8000 [NULL; NULL]) /\
    wbufs w' = ∅ /\
    engine w' = mkSoloud NULL None.
Proof.
  apply (n3ds_homebrew_init_descriptors_null 0x500 0 1024 Sample.env
           Sample.fresh); discriminate.
Defined.

(** C10. In the supported configuration, once [ndspInit] has reported a
    nonzero value, the call does not return, whatever [linearAlloc] hands
    back: it stops in the descriptor loop after the same eight outside
    calls.  The value of [linearAlloc] is nowhere tested and no error code
    is produced for it, but the [return 0] of line 187 is not reached
    either. *)
Theorem n3ds_homebrew_init_never_returns
    (aSoloud aFlags aBuffer : Z) (env : init_env) (w : world) :
  ndspInit_ret env <> 0 ->
  returned (n3ds_homebrew_init aSoloud aFlags 44100 aBuffer 2 env w) = None /\
  log (state_of (n3ds_homebrew_init aSoloud aFlags 44100 aBuffer 2 env w))
  = log w ++ calls_before_line_157 aBuffer env.
Proof.
  intros Hr.
  rewrite (n3ds_homebrew_init_supported _ _ _ _ _ Hr).
  match goal with
  | |- context [ (init_session ?a ?b ?c ?e ≫= ?f) ?w0 ] =>
      destruct (init_session_never_finishes a b c e w0)
        as (w' & Hs & Hl & _);
      rewrite (bind_Fault _ f _ _ Hs)
  end.
  split; [reflexivity|].
  cbn [state_of]. rewrite Hl. cbn [log set_log].
  unfold calls_before_line_157. rewrite <- !app_assoc. reflexivity.
Qed.

Lemma n3ds_homebrew_init_never_returns_witness :
  returned (n3ds_homebrew_init 0x500 0 44100 1024 2 Sample.env_no_memory
              Sample.fresh) = None /\
  log (state_of (n3ds_homebrew_init 0x500 0 44100 1024 2
                   Sample.env_no_memory Sample.fresh))
  = [ndspInit;
     ndspChnReset 0;
     ndspSetOutputMode NDSP_OUTPUT_STEREO;
     ndspChnSetInterp 0 NDSP_INTERP_POLYPHASE;
     ndspChnSetRate 0 44100;
     ndspChnSetFormat 0 NDSP_FORMAT_STEREO_PCM16;
     new_N3Data 0x1000;
     linearAlloc 8192].
Proof.
  apply (n3ds_homebrew_init_never_returns 0x500 0 1024 Sample.env_no_memory
           Sample.fresh).
  discriminate.
Defined.

(** The other exits of the entry point, for reference: a zero from
    [ndspInit] is answered with [UNKNOWN_ERROR] after that one call. *)
Example n3ds_homebrew_init_ndsp_zero :
  n3ds_homebrew_init 0x500 0 44100 1024 2
    (mkEnv 0 0x1000 0x8000 (Some 0x30) 7) Sample.fresh
  = Ok UNKNOWN_ERROR (set_log [ndspInit] Sample.fresh).
Proof. reflexivity. Qed.

(* ===================================================================== *)
(** ** Further properties: the priority computation *)
(* ===================================================================== *)

(** X1. Whatever value the priority query leaves behind, the priority handed
    to [threadCreate] lies in the valid range [0x18, 0x3F]. *)
Theorem n3ds_thread_priority_in_range (p : Z) :
  0x18 <= n3ds_thread_priority p <= 0x3F.
Proof.
  unfold n3ds_thread_priority.
  destruct (Z.ltb_spec (sint32 (p - 1)) 0x18);
    [ cbn; lia | destruct (Z.gtb_spec (sint32 (p - 1)) 0x3F); lia ].
Qed.

(** X2. The priority computation is monotone on the values whose decrement
    is defined: a caller with a larger priority number never gets a thread
    with a smaller one. *)
Theorem n3ds_thread_priority_monotone (p q : Z) :
  INT32_MIN < p -> p <= q -> q <= INT32_MAX ->
  n3ds_thread_priority p <= n3ds_thread_priority q.
Proof.
  intros Hp Hpq Hq. unfold n3ds_thread_priority.
  rewrite !sint32_small by (unfold INT32_MIN, INT32_MAX in *; lia).
  destruct (Z.ltb_spec (p - 1) 0x18), (Z.ltb_spec (q - 1) 0x18);
    repeat match goal with
           | |- context [ ?a >? ?b ] => destruct (Z.gtb_spec a b)
           end; lia.
Qed.

Lemma n3ds_thread_priority_monotone_witness :
  n3ds_thread_priority 0x20 <= n3ds_thread_priority 0x30.
Proof.
  apply n3ds_thread_priority_monotone; unfold INT32_MIN, INT32_MAX; lia.
Defined.

(* ===================================================================== *)
(** ** Further properties: the entry point as a whole *)
(* ===================================================================== *)

Lemma wrap32_mul_l a b : wrap32 (wrap32 a * b) = wrap32 (a * b).
Proof. unfold wrap32. apply Z.mul_mod_idemp_l. discriminate. Qed.

(** X3. The value returned by the entry point is decided by its first two
    tests alone: [INVALID_PARAMETER] when the configuration is not
    44100 Hz stereo, else [UNKNOWN_ERROR] when [ndspInit] reports zero, and
    otherwise no value at all. *)
Theorem n3ds_homebrew_init_returned
    (aSoloud aFlags aSamplerate aBuffer aChannels : Z)
    (env : init_env) (w : world) :
  returned (n3ds_homebrew_init aSoloud aFlags aSamplerate aBuffer aChannels
              env w)
  = if negb (aSamplerate =? 44100) || negb (aChannels =? 2)
    then Some INVALID_PARAMETER
    else if ndspInit_ret env =? 0 then Some UNKNOWN_ERROR else None.
Proof.
  destruct (Z.eqb_spec aSamplerate 44100) as [->|Hr];
    [destruct (Z.eqb_spec aChannels 2) as [->|Hc]|].
  - cbn [negb orb].
    destruct (Z.eqb_spec (ndspInit_ret env) 0) as [E|E].
    + unfold n3ds_homebrew_init. cbn [Z.eqb Pos.eqb negb orb].
      rewrite emit_bind, E. reflexivity.
    + rewrite (n3ds_homebrew_init_supported _ _ _ _ _ E).
      match goal with
      | |- context [ (init_session ?a ?b ?c ?e ≫= ?f) ?w0 ] =>
          destruct (init_session_never_finishes a b c e w0) as (w' & Hs & _);
          rewrite (bind_Fault _ f _ _ Hs)
      end.
      reflexivity.
  - unfold n3ds_homebrew_init.
    destruct (Z.eqb_spec 44100 44100) as [_|N]; [|contradiction].
    destruct (Z.eqb_spec aChannels 2); [contradiction|]. reflexivity.
  - unfold n3ds_homebrew_init.
    destruct (Z.eqb_spec aSamplerate 44100); [contradiction|]. reflexivity.
Qed.

(** X4. No call of the entry point, with any arguments and any answers from
    the outside, publishes a session: the engine object, the callback
    registration and the descriptor memory end as they were, and none of
    [postinit_internal], [ndspSetCallback], [threadCreate] has been
    called. *)
Theorem n3ds_homebrew_init_never_publishes
    (aSoloud aFlags aSamplerate aBuffer aChannels : Z)
    (env : init_env) (w : world) :
  exists l,
    log (state_of (n3ds_homebrew_init aSoloud aFlags aSamplerate aBuffer
                     aChannels env w)) = log w ++ l /\
    forallb (fun c => negb (is_publishing_call c)) l = true /\
    engine (state_of (n3ds_homebrew_init aSoloud aFlags aSamplerate aBuffer
                        aChannels env w)) = engine w /\
    ndsp_cb (state_of (n3ds_homebrew_init aSoloud aFlags aSamplerate aBuffer
                         aChannels env w)) = ndsp_cb w /\
    wbufs (state_of (n3ds_homebrew_init aSoloud aFlags aSamplerate aBuffer
                       aChannels env w)) = wbufs w.
Proof.
  destruct (Z.eqb_spec aSamplerate 44100) as [->|Hr];
    [destruct (Z.eqb_spec aChannels 2) as [->|Hc]|].
  - destruct (Z.eqb_spec (ndspInit_ret env) 0) as [E|E].
    + exists [ndspInit]. unfold n3ds_homebrew_init.
      cbn [Z.eqb Pos.eqb negb orb]. rewrite emit_bind, E.
      repeat split; reflexivity.
    + rewrite (n3ds_homebrew_init_supported _ _ _ _ _ E).
      match goal with
      | |- context [ (init_session ?a ?b ?c ?e ≫= ?f) ?w0 ] =>
          destruct (init_session_never_finishes a b c e w0)
            as (w' & Hs & Hl & Hw & He & Hc);
          rewrite (bind_Fault _ f _ _ Hs)
      end.
      cbn [state_of]. rewrite Hl, Hw, He, Hc. cbn [log set_log].
      eexists. split; [rewrite <- app_assoc; reflexivity|].
      repeat split; reflexivity.
  - exists []. unfold n3ds_homebrew_init.
    destruct (Z.eqb_spec 44100 44100) as [_|N]; [|contradiction].
    destruct (Z.eqb_spec aChannels 2); [contradiction|].
    cbn. rewrite app_nil_r. repeat split; reflexivity.
  - exists []. unfold n3ds_homebrew_init.
    destruct (Z.eqb_spec aSamplerate 44100); [contradiction|].
    cbn. rewrite app_nil_r. repeat split; reflexivity.
Qed.

(** X5. In the supported configuration, once [ndspInit] has reported a
    nonzero value, the block asked of [linearAlloc] has [8 * aBuffer] bytes
    reduced modulo 2^32: two buffers of [aBuffer] stereo 16-bit samples
    whenever that fits 32 bits, fewer bytes than that otherwise. *)
Theorem n3ds_homebrew_init_block_size
    (aSoloud aFlags aBuffer : Z) (env : init_env) (w : world) :
  ndspInit_ret env <> 0 ->
  In (linearAlloc ((8 * aBuffer) mod 2 ^ 32))
     (log (state_of (n3ds_homebrew_init aSoloud aFlags 44100 aBuffer 2 env w))).
Proof.
  intros E.
  rewrite (n3ds_homebrew_init_supported _ _ _ _ _ E).
  match goal with
  | |- context [ (init_session ?a ?b ?c ?e ≫= ?f) ?w0 ] =>
      destruct (init_session_never_finishes a b c e w0) as (w' & Hs & Hl & _);
      rewrite (bind_Fault _ f _ _ Hs)
  end.
  cbn [state_of]. rewrite Hl. apply in_or_app. right. right. left.
  f_equal. unfold sizeof_int16.
  rewrite wrap32_mul_l, <- Z.mul_assoc, wrap32_mul_l. unfold wrap32.
  replace (2 * aBuffer * (2 * 2)) with (8 * aBuffer) by lia. reflexivity.
Qed.

Lemma n3ds_homebrew_init_block_size_witness :
  In (linearAlloc ((8 * 1024) mod 2 ^ 32))
     (log (state_of (n3ds_homebrew_init 0x500 0 44100 1024 2 Sample.env
                       Sample.fresh))).
Proof.
  apply n3ds_homebrew_init_block_size. discriminate.
Defined.

(* ===================================================================== *)
(** ** Further properties: publishing, spawning and tearing down *)
(* ===================================================================== *)

Lemma init_publish_Ok data aFlags aSamplerate aChannels w d :
  data <> NULL -> objs w !! data = Some d ->
  init_publish data aFlags aSamplerate aChannels w =
    Ok tt (mkWorld (objs w) (wbufs w)
             (mkSoloud data (Some fn_n3ds_cleanup)) (Some data)
             (log w ++ [postinit_internal aSamplerate
                          (wrap32 (samplesPerWavebuf d * aChannels))
                          aFlags aChannels;
                        ndspSetCallback data])).
Proof.
  intros Hp Hd. unfold init_publish, get_engine, put_engine, put_ndsp_cb.
  unfold mbind at 1. unfold exec_bind at 1. rewrite modify_world_bind.
  unfold mbind at 1. unfold exec_bind at 1. rewrite modify_world_bind.
  erewrite bind_Ok by (apply load_data_Ok; [exact Hp | exact Hd]).
  rewrite emit_bind, modify_world_bind.
  unfold emit, modify_world. cbn. rewrite <- app_assoc. reflexivity.
Qed.

Lemma init_spawn_Ok data env w d :
  data <> NULL -> objs w !! data = Some d ->
  init_spawn data env w =
    Ok SO_NO_ERROR
       (mkWorld (<[data := set_tid (threadCreate_ret env) d]> (objs w))
          (wbufs w) (engine w) (ndsp_cb w)
          (log w ++ [svcGetThreadPriority;
                     threadCreate data (32 * 1024)
                       (n3ds_thread_priority
                          (default 0x30 (svcGetThreadPriority_out env)))
                       (-1) false])).
Proof.
  intros Hp Hd. unfold init_spawn. rewrite !emit_bind.
  erewrite bind_Ok by (apply modify_data_Ok; [exact Hp | exact Hd]).
  cbn. rewrite <- app_assoc. reflexivity.
Qed.

(** X6. Publishing and spawning on a session in memory always succeed and
    hand one and the same pointer to three parties: the engine's backend
    slot, the callback registration and the new thread's argument.  The
    cleanup entry is installed, and the session record changes in its thread
    handle only; the descriptors are not touched. *)
Theorem init_publish_spawn_shares_session
    (data aFlags aSamplerate aChannels : Z) (env : init_env)
    (w : world) (d : N3Data) :
  data <> NULL ->
  objs w !! data = Some d ->
  exists w' prio,
    (init_publish data aFlags aSamplerate aChannels;;
     init_spawn data env) w = Ok SO_NO_ERROR w' /\
    engine w' = mkSoloud data (Some fn_n3ds_cleanup) /\
    ndsp_cb w' = Some data /\
    log w' = log w ++ [postinit_internal aSamplerate
                         (wrap32 (samplesPerWavebuf d * aChannels))
                         aFlags aChannels;
                       ndspSetCallback data;
                       svcGetThreadPriority;
                       threadCreate data (32 * 1024) prio (-1) false] /\
    objs w' = <[data := set_tid (threadCreate_ret env) d]> (objs w) /\
    wbufs w' = wbufs w.
Proof.
  intros Hp Hd.
  erewrite bind_Ok by (apply init_publish_Ok; [exact Hp | exact Hd]).
  erewrite init_spawn_Ok by (first [exact Hp | exact Hd]).
  eexists _, _. split; [reflexivity|]. cbn.
  rewrite <- app_assoc. repeat split; reflexivity.
Qed.

Lemma init_publish_spawn_shares_session_witness :
  exists w' prio,
    (init_publish 0x1000 0 44100 2;;
     init_spawn 0x1000 Sample.env) Sample.running = Ok SO_NO_ERROR w' /\
    engine w' = mkSoloud 0x1000 (Some fn_n3ds_cleanup) /\
    ndsp_cb w' = Some 0x1000 /\
    log w' = log Sample.running
             ++ [postinit_internal 44100 (wrap32 (1024 * 2)) 0 2;
                 ndspSetCallback 0x1000;
                 svcGetThreadPriority;
                 threadCreate 0x1000 (32 * 1024) prio (-1) false] /\
    objs w' = <[0x1000 := set_tid 7 Sample.session]> (objs Sample.running) /\
    wbufs w' = wbufs Sample.running.
Proof.
  apply (init_publish_spawn_shares_session 0x1000 0 44100 2 Sample.env
           Sample.running Sample.session); [discriminate | reflexivity].
Defined.

(** X7. Teardown run right after publishing and spawning raises the flag,
    signals, joins exactly the thread [threadCreate] returned and then stops
    in [free(data->wavebufs)]: nothing has been released, the session record
    is still in memory with the engine's handle on it, and NDSP still holds
    the callback on it. *)
Theorem init_then_cleanup
    (data aFlags aSamplerate aChannels : Z) (env : init_env)
    (w : world) (d : N3Data) :
  data <> NULL ->
  objs w !! data = Some d ->
  exists w1 w2,
    (init_publish data aFlags aSamplerate aChannels;;
     init_spawn data env) w = Ok SO_NO_ERROR w1 /\
    n3ds_cleanup w1 = Fault w2 /\
    log w2 = log w1 ++ [atomic_store_done data;
                        LightEvent_Signal data;
                        threadJoin (threadCreate_ret env) UINT64_MAX;
                        free_wavebufs_member data] /\
    is_Some (objs w2 !! data) /\
    engine w2 = mkSoloud data (Some fn_n3ds_cleanup) /\
    ndsp_cb w2 = Some data.
Proof.
  intros Hp Hd.
  erewrite bind_Ok by (apply init_publish_Ok; [exact Hp | exact Hd]).
  erewrite init_spawn_Ok by (first [exact Hp | exact Hd]).
  eexists _, _. split; [reflexivity|].
  split.
  { apply (n3ds_cleanup_stops _ data (set_tid (threadCreate_ret env) d));
      [reflexivity | exact Hp | apply lookup_insert_eq]. }
  cbn. split; [reflexivity|].
  split; [rewrite lookup_insert_eq; eexists; reflexivity|].
  split; reflexivity.
Qed.

Lemma init_then_cleanup_witness :
  exists w1 w2,
    (init_publish 0x1000 0 44100 2;;
     init_spawn 0x1000 Sample.env) Sample.running = Ok SO_NO_ERROR w1 /\
    n3ds_cleanup w1 = Fault w2 /\
    log w2 = log w1 ++ [atomic_store_done 0x1000;
                        LightEvent_Signal 0x1000;
                        threadJoin 7 UINT64_MAX;
                        free_wavebufs_member 0x1000] /\
    is_Some (objs w2 !! 0x1000) /\
    engine w2 = mkSoloud 0x1000 (Some fn_n3ds_cleanup) /\
    ndsp_cb w2 = Some 0x1000.
Proof.
  apply (init_then_cleanup 0x1000 0 44100 2 Sample.env Sample.running
           Sample.session); [discriminate | reflexivity].
Defined.

(** X9. The descriptor loop of the initialization, run over two distinct
    descriptors in memory and a block that does not wrap around the address
    space, points the first at the start of the block and the second
    [wavebufSize] bytes further, marks both done, keeps their sample counts,
    and calls nothing. *)
Theorem init_wavebufs_two_halves
    (b0 b1 : Z) (x0 x1 : ndspWaveBuf) (myBuffer wavebufSize : Z) (w : world) :
  b0 <> NULL -> b1 <> NULL -> b0 <> b1 ->
  wbufs w !! b0 = Some x0 -> wbufs w !! b1 = Some x1 ->
  0 <= myBuffer -> 0 <= wavebufSize -> wavebufSize mod 2 = 0 ->
  myBuffer + wavebufSize < 2 ^ 32 ->
  exists w',
    init_wavebufs [b0; b1] myBuffer wavebufSize w = Ok tt w' /\
    wbufs w' !! b0 = Some (mkWaveBuf myBuffer (nsamples x0) NDSP_WBUF_DONE) /\
    wbufs w' !! b1
    = Some (mkWaveBuf (myBuffer + wavebufSize) (nsamples x1) NDSP_WBUF_DONE) /\
    log w' = log w /\ objs w' = objs w.
Proof.
  intros H0 H1 Hne Hx0 Hx1 Hb Hs Hev Hfit.
  assert (Hadv : wrap32 (myBuffer + wavebufSize / sizeof_int16 * sizeof_int16)
                 = myBuffer + wavebufSize).
  { unfold sizeof_int16.
    assert (wavebufSize / 2 * 2 = wavebufSize).
    { pose proof (Z.div_mod wavebufSize 2). lia. }
    rewrite H. apply wrap32_small. lia. }
  cbn [init_wavebufs].
  erewrite bind_Ok by (apply modify_wb_Ok; [exact H0 | exact Hx0]).
  erewrite bind_Ok
    by (apply modify_wb_Ok; [exact H0 | cbn; apply lookup_insert_eq]).
  rewrite Hadv.
  erewrite bind_Ok
    by (apply modify_wb_Ok;
        [exact H1 | cbn; rewrite !lookup_insert_ne by exact Hne; exact Hx1]).
  erewrite bind_Ok
    by (apply modify_wb_Ok; [exact H1 | cbn; apply lookup_insert_eq]).
  eexists. split; [reflexivity|]. cbn.
  split.
  - rewrite !lookup_insert_ne by (intros E; apply Hne; symmetry; exact E).
    rewrite lookup_insert_eq. reflexivity.
  - split; [rewrite lookup_insert_eq; reflexivity|]. split; reflexivity.
Qed.

Lemma init_wavebufs_two_halves_witness :
  exists w',
    init_wavebufs [0x2000; 0x2020] 0x8000 4096 Sample.running = Ok tt w' /\
    wbufs w' !! 0x2000 = Some (mkWaveBuf 0x8000 0 NDSP_WBUF_DONE) /\
    wbufs w' !! 0x2020 = Some (mkWaveBuf (0x8000 + 4096) 0 NDSP_WBUF_DONE) /\
    log w' = log Sample.running /\ objs w' = objs Sample.running.
Proof.
  apply (init_wavebufs_two_halves 0x2000 0x2020
           (mkWaveBuf 0x8000 0 NDSP_WBUF_DONE)
           (mkWaveBuf 0x9000 0 NDSP_WBUF_DONE));
    first [discriminate | reflexivity | lia].
Defined.

(* ===================================================================== *)
(** ** Further properties: one pass and one move of the thread *)
(* ===================================================================== *)

(** X10. A pass through the loop body that runs to its end leaves every
    session record, the engine object and the callback registration as
    they were, and of the descriptors' addresses and sample counts it
    writes one: the sample count of the descriptor selected by [buf_id],
    which becomes [samplesPerWavebuf].  Every descriptor keeps its
    address, and every other descriptor keeps its sample count. *)
Theorem n3ds_thread_body_frame (p b : Z) (w : world) (b' : Z) (w' : world) :
  n3ds_thread_body p b w = Ok b' w' ->
  objs w' = objs w /\ engine w' = engine w /\ ndsp_cb w' = ndsp_cb w /\
  exists d buffer,
    objs w !! p = Some d /\
    wavebufs d !! Z.to_nat b = Some buffer /\
    nsamples <$> wbufs w' !! buffer = Some (samplesPerWavebuf d) /\
    (forall q, data_vaddr <$> wbufs w' !! q = data_vaddr <$> wbufs w !! q) /\
    (forall q, q <> buffer ->
               nsamples <$> wbufs w' !! q = nsamples <$> wbufs w !! q).
Proof.
  intros H.
  apply n3ds_thread_body_inv in H
    as (d & buffer & wb & _ & Hd & _ & Hbuf & _ & Hwb & _ & ->).
  split; [reflexivity|]. split; [reflexivity|]. split; [reflexivity|].
  exists d, buffer. split; [exact Hd|]. split; [exact Hbuf|].
  unfold body_result; cbn [wbufs]. split; [|split].
  - rewrite lookup_insert_eq. reflexivity.
  - intros q. destruct (decide (buffer = q)) as [<-|Hne].
    + rewrite lookup_insert_eq, Hwb. reflexivity.
    + rewrite lookup_insert_ne by exact Hne. reflexivity.
  - intros q Hne. rewrite lookup_insert_ne; [reflexivity|].
    intros E. apply Hne. symmetry. exact E.
Qed.

Lemma n3ds_thread_body_frame_witness :
  exists w',
    n3ds_thread_body 0x1000 0 Sample.running = Ok 1 w' /\
    objs w' = objs Sample.running /\ engine w' = engine Sample.running /\
    ndsp_cb w' = ndsp_cb Sample.running /\
    exists d buffer,
      objs Sample.running !! 0x1000 = Some d /\
      wavebufs d !! Z.to_nat 0 = Some buffer /\
      nsamples <$> wbufs w' !! buffer = Some (samplesPerWavebuf d) /\
      (forall q, data_vaddr <$> wbufs w' !! q
                 = data_vaddr <$> wbufs Sample.running !! q) /\
      (forall q, q <> buffer ->
                 nsamples <$> wbufs w' !! q
                 = nsamples <$> wbufs Sample.running !! q).
Proof.
  assert (H : n3ds_thread_body 0x1000 0 Sample.running
              = Ok 1 (body_result 0 Sample.running Sample.session 0x2000
                        (mkWaveBuf 0x8000 0 NDSP_WBUF_DONE))).
  { apply (n3ds_thread_body_Ok 0x1000 0 Sample.running Sample.session 0x2000
             (mkWaveBuf 0x8000 0 NDSP_WBUF_DONE));
      first [discriminate | reflexivity | lia]. }
  eexists. split; [exact H|].
  apply (n3ds_thread_body_frame 0x1000 0 Sample.running 1). exact H.
Defined.


Lemma n3ds_thread_step_pass p b w d buffer wb :
  p <> NULL -> objs w !! p = Some d -> done d = false ->
  0 <= b -> wavebufs d !! Z.to_nat b = Some buffer ->
  buffer <> NULL -> wbufs w !! buffer = Some wb ->
  n3ds_thread_step p (w, LoopHead b)
  = (set_log (log (body_result b w d buffer wb) ++ [LightEvent_Wait p])
       (body_result b w d buffer wb),
     Blocked (Z.lxor b 1)).
Proof.
  intros Hp Hd Hdone Hb Hbuf Hn Hwb.
  unfold n3ds_thread_step. cbn [fst snd].
  rewrite (load_data_Ok p w d Hp Hd), Hdone.
  erewrite bind_Ok by (apply n3ds_thread_body_Ok; eassumption).
  rewrite emit_bind. reflexivity.
Qed.

Lemma n3ds_thread_step_quit p b w d :
  p <> NULL -> objs w !! p = Some d -> done d = true ->
  n3ds_thread_step p (w, LoopHead b) = (w, Returned).
Proof.
  intros Hp Hd Hdone. unfold n3ds_thread_step. cbn [fst snd].
  rewrite (load_data_Ok p w d Hp Hd), Hdone. reflexivity.
Qed.

Lemma n3ds_thread_step_wake p b w d :
  p <> NULL -> objs w !! p = Some d -> event d = true ->
  n3ds_thread_step p (w, Blocked b)
  = (set_objs (<[p := set_event false d]> (objs w)) w, LoopHead b).
Proof.
  intros Hp Hd He. unfold n3ds_thread_step. cbn [fst snd].
  rewrite (load_data_Ok p w d Hp Hd), He.
  rewrite (modify_data_Ok p _ w d Hp Hd). reflexivity.
Qed.

Lemma request_shutdown_Ok p w d :
  mBackendData (engine w) = p -> p <> NULL -> objs w !! p = Some d ->
  request_shutdown w =
    Ok tt (mkWorld (<[p := set_event true (set_done true d)]> (objs w))
                   (wbufs w) (engine w) (ndsp_cb w)
                   (log w ++ [atomic_store_done p; LightEvent_Signal p])).
Proof.
  intros He Hp Hd. unfold request_shutdown, get_engine.
  unfold mbind at 1. unfold exec_bind at 1. rewrite He.
  destruct (Z.eqb_spec p NULL); [contradiction|].
  apply cleanup_signal_Ok; assumption.
Qed.

(** X12. The shutdown handshake works from both places the thread can be.
    Once the owner has raised the quit flag and signalled, a thread parked
    in its wait leaves the wait and then the loop, and a thread about to
    test the flag leaves the loop at once.  In both cases the thread has
    returned without another render or submission, and the only calls made
    are the flag store and the signal. *)
Theorem shutdown_handshake (p b : Z) (w : world) (d : N3Data) :
  mBackendData (engine w) = p ->
  p <> NULL ->
  objs w !! p = Some d ->
  exists w1 w2,
    sys_run p [RequestShutdown; ThreadStep; ThreadStep] (w, Blocked b)
    = (w2, Returned) /\
    sys_run p [RequestShutdown; ThreadStep] (w, LoopHead b)
    = (w1, Returned) /\
    log w1 = log w ++ [atomic_store_done p; LightEvent_Signal p] /\
    log w2 = log w ++ [atomic_store_done p; LightEvent_Signal p] /\
    wbufs w1 = wbufs w /\ wbufs w2 = wbufs w.
Proof.
  intros He Hp Hd.
  pose proof (request_shutdown_Ok p w d He Hp Hd) as Hreq.
  set (w1 := mkWorld (<[p := set_event true (set_done true d)]> (objs w))
                     (wbufs w) (engine w) (ndsp_cb w)
                     (log w ++ [atomic_store_done p; LightEvent_Signal p]))
   in *.
  assert (Hd1 : objs w1 !! p = Some (set_event true (set_done true d)))
    by apply lookup_insert_eq.
  exists w1, (set_objs (<[p := set_event false
                                  (set_event true (set_done true d))]>
                          (objs w1)) w1).
  split; [|split].
  - unfold sys_run. cbn [fold_left]. unfold sys_step at 3. cbn [fst snd].
    unfold lift_env. cbn [fst snd]. rewrite Hreq.
    unfold sys_step at 2. cbn [fst snd].
    rewrite (n3ds_thread_step_wake p b w1 _ Hp Hd1) by reflexivity.
    unfold sys_step. cbn [fst snd].
    apply (n3ds_thread_step_quit p b _ (set_event false
                                     (set_event true (set_done true d))));
      [exact Hp | apply lookup_insert_eq | reflexivity].
  - unfold sys_run. cbn [fold_left]. unfold sys_step at 2. cbn [fst snd].
    unfold lift_env. cbn [fst snd]. rewrite Hreq.
    unfold sys_step. cbn [fst snd].
    apply (n3ds_thread_step_quit p b w1 _ Hp Hd1). reflexivity.
  - repeat split; reflexivity.
Qed.

Lemma shutdown_handshake_witness :
  exists w1 w2,
    sys_run 0x1000 [RequestShutdown; ThreadStep; ThreadStep]
      (Sample.running, Blocked 1) = (w2, Returned) /\
    sys_run 0x1000 [RequestShutdown; ThreadStep]
      (Sample.running, LoopHead 1) = (w1, Returned) /\
    log w1 = log Sample.running
             ++ [atomic_store_done 0x1000; LightEvent_Signal 0x1000] /\
    log w2 = log Sample.running
             ++ [atomic_store_done 0x1000; LightEvent_Signal 0x1000] /\
    wbufs w1 = wbufs Sample.running /\ wbufs w2 = wbufs Sample.running.
Proof.
  apply (shutdown_handshake 0x1000 1 Sample.running Sample.session);
    first [discriminate | reflexivity].
Defined.



(* ===================================================================== *)
(** ** Further properties: after the quit flag *)
(* ===================================================================== *)

Section Keeps.

Context {A B : Type} (P : world -> Prop).

Lemma keeps_ret (a : A) : keeps P (mret a).
Proof. intros w H. exact H. Qed.

Lemma keeps_bind (m : exec A) (f : A -> exec B) :
  keeps P m -> (forall a, keeps P (f a)) -> keeps P (m ≫= f).
Proof.
  intros Hm Hf w H. specialize (Hm w H).
  unfold mbind, exec_bind. destruct (m w) as [a w1|w1]; cbn in Hm.
  - apply Hf. exact Hm.
  - exact Hm.
Qed.

End Keeps.

Lemma keeps_load_data P p : keeps P (load_data p).
Proof.
  intros w H. unfold load_data. destruct (p =? NULL); [exact H|].
  destruct (objs w !! p); exact H.
Qed.

Lemma keeps_modify_world (P : world -> Prop) g :
  (forall w, P w -> P (g w)) -> keeps P (modify_world g).
Proof. intros Hg w H. apply Hg. exact H. Qed.

Lemma quit_raised_log p w l :
  quit_raised p w -> quit_raised p (set_log l w).
Proof. intros H. exact H. Qed.

(** Writing a record through [q] with a function that never lowers the quit
    flag keeps the flag of [p] raised, whether or not [q] is [p]. *)
Lemma keeps_quit_modify_data p q f :
  (forall d, done d = true -> done (f d) = true) ->
  keeps (quit_raised p) (modify_data q f).
Proof.
  intros Hf w (Hp & d & Hd & Hdone). unfold modify_data.
  unfold mbind, exec_bind.
  destruct (load_data q w) as [dq w1|w1] eqn:Hl.
  - apply load_data_inv in Hl as (-> & Hq & Hdq). cbn.
    split; [exact Hp|]. cbn.
    destruct (decide (q = p)) as [->|Hne].
    + exists (f d). rewrite lookup_insert_eq.
      assert (dq = d) by congruence. subst dq.
      split; [reflexivity | apply Hf; exact Hdone].
    + exists d. rewrite lookup_insert_ne by exact Hne. split; assumption.
  - apply load_data_Fault_inv in Hl as ->. cbn.
    split; [exact Hp|]. exists d. split; assumption.
Qed.

Lemma keeps_quit_emit p c : keeps (quit_raised p) (emit c).
Proof. apply keeps_modify_world. intros w H. exact H. Qed.

Lemma keeps_quit_signal_event p q : keeps (quit_raised p) (signal_event q).
Proof.
  apply keeps_bind; [apply keeps_quit_modify_data; intros d H; exact H|].
  intros _. apply keeps_quit_emit.
Qed.

Lemma keeps_quit_n3ds_audioCallback p q :
  keeps (quit_raised p) (n3ds_audioCallback q).
Proof.
  apply keeps_bind; [apply keeps_load_data|].
  intros d. destruct (done d); [apply keeps_ret | apply keeps_quit_signal_event].
Qed.

Lemma keeps_quit_request_shutdown p : keeps (quit_raised p) request_shutdown.
Proof.
  apply keeps_bind; [intros w H; exact H|].
  intros e. destruct (mBackendData e =? NULL); [apply keeps_ret|].
  apply keeps_bind; [apply keeps_quit_modify_data; intros d _; reflexivity|].
  intros _. apply keeps_bind; [apply keeps_quit_emit|].
  intros _. apply keeps_quit_signal_event.
Qed.

(** With the flag raised, a move of the thread makes no call at all. *)
Lemma n3ds_thread_step_after_quit p s :
  quit_raised p (fst s) ->
  quit_raised p (fst (n3ds_thread_step p s)) /\
  exists l, log (fst (n3ds_thread_step p s)) = log (fst s) ++ l
            /\ submitted l = [].
Proof.
  destruct s as [w ts]. cbn [fst].
  intros Hq. pose proof Hq as (Hp & d & Hd & Hdone).
  assert (Hnil : forall w', log w' = log w ->
                   exists l, log w' = log w ++ l /\ submitted l = []).
  { intros w' E. exists []. rewrite app_nil_r. split; [exact E | reflexivity]. }
  destruct ts as [b|b| |]; try (split; [exact Hq | apply Hnil; reflexivity]).
  - rewrite (n3ds_thread_step_quit p b w d Hp Hd Hdone).
    split; [exact Hq | apply Hnil; reflexivity].
  - unfold n3ds_thread_step. cbn [fst snd].
    rewrite (load_data_Ok p w d Hp Hd).
    destruct (event d); [|split; [exact Hq | apply Hnil; reflexivity]].
    rewrite (modify_data_Ok p _ w d Hp Hd). cbn [fst].
    split; [|apply Hnil; reflexivity].
    split; [exact Hp|]. exists (set_event false d).
    cbn. rewrite lookup_insert_eq. split; [reflexivity | exact Hdone].
Qed.

Lemma sys_step_after_quit p a w ts :
  quit_raised p w ->
  quit_raised p (fst (sys_step p a (w, ts))) /\
  exists l, log (fst (sys_step p a (w, ts))) = log w ++ l /\ submitted l = [].
Proof.
  intros Hq.
  assert (Hsame : quit_raised p w /\
                  exists l, log w = log w ++ l /\ submitted l = []).
  { split; [exact Hq|]. exists []. rewrite app_nil_r. split; reflexivity. }
  assert (Henv : forall m : exec unit,
             keeps (quit_raised p) m -> quiet m ->
             quit_raised p (fst (lift_env m (w, ts))) /\
             exists l, log (fst (lift_env m (w, ts))) = log w ++ l
                       /\ submitted l = []).
  { intros m Hk Hqt. specialize (Hk w Hq). specialize (Hqt w).
    unfold lift_env. cbn [fst snd].
    destruct (m w) as [[] w1|w1]; cbn in *; split; assumption. }
  unfold sys_step. cbn [fst snd].
  destruct ts as [b|b| |]; try exact Hsame.
  all: destruct a;
    [ apply (n3ds_thread_step_after_quit p); exact Hq
    | destruct (ndsp_cb w);
      [ apply Henv;
        [apply keeps_quit_n3ds_audioCallback | apply quiet_n3ds_audioCallback]
      | exact Hsame ]
    | apply Henv;
      [apply keeps_quit_request_shutdown | apply quiet_request_shutdown] ].
Qed.

(** X13. The quit flag is final.  From any state in which the session's flag
    is raised, and from wherever the thread stands, no schedule of thread
    moves, frame callbacks and further shutdown requests lowers the flag or
    leads to another submission to the hardware queue. *)
Theorem no_submission_after_quit
    (p : Z) (sched : list action) (w : world) (ts : tstate) :
  quit_raised p w ->
  quit_raised p (fst (sys_run p sched (w, ts))) /\
  exists new,
    log (fst (sys_run p sched (w, ts))) = log w ++ new /\
    submitted new = [].
Proof.
  revert w ts. induction sched as [|a sched IH]; intros w ts Hq.
  - split; [exact Hq|]. exists []. rewrite app_nil_r. split; reflexivity.
  - cbn [sys_run fold_left].
    destruct (sys_step p a (w, ts)) as [w1 ts1] eqn:E.
    pose proof (sys_step_after_quit p a w ts Hq) as (Hq1 & l1 & El1 & Sl1).
    rewrite E in Hq1, El1. cbn [fst] in Hq1, El1.
    destruct (IH w1 ts1 Hq1) as (Hq2 & l2 & El2 & Sl2).
    split; [exact Hq2|].
    exists (l1 ++ l2). unfold sys_run in El2. rewrite El2, El1, app_assoc.
    split; [reflexivity|]. rewrite submitted_app, Sl1, Sl2. reflexivity.
Qed.

Lemma no_submission_after_quit_witness :
  quit_raised 0x1000
    (fst (sys_run 0x1000 [FrameCallback; ThreadStep; RequestShutdown; ThreadStep]
            (Sample.quitting, Blocked 1))) /\
  exists new,
    log (fst (sys_run 0x1000
                [FrameCallback; ThreadStep; RequestShutdown; ThreadStep]
                (Sample.quitting, Blocked 1)))
    = log Sample.quitting ++ new /\
    submitted new = [].
Proof.
  apply no_submission_after_quit.
  split; [discriminate|].
  exists (set_done true Sample.session). split; reflexivity.
Defined.

(* ===================================================================== *)
(** ** Further properties: a healthy session never faults *)
(* ===================================================================== *)

Lemma healthy_objs p b0 b1 w d d' l :
  healthy p b0 b1 w -> objs w !! p = Some d -> wavebufs d' = wavebufs d ->
  healthy p b0 b1
    (mkWorld (<[p := d']> (objs w)) (wbufs w) (engine w) (ndsp_cb w) l).
Proof.
  intros (Hp & H0 & H1 & (d0 & Hd0 & Hw) & S0 & S1 & Hc & He) Hd Hwd.
  assert (d0 = d) by congruence. subst d0.
  split; [exact Hp|]. split; [exact H0|]. split; [exact H1|].
  split; [|repeat split; assumption].
  exists d'. cbn. rewrite lookup_insert_eq. split; congruence.
Qed.

Lemma healthy_wbufs p b0 b1 w k x l :
  healthy p b0 b1 w ->
  healthy p b0 b1
    (mkWorld (objs w) (<[k := x]> (wbufs w)) (engine w) (ndsp_cb w) l).
Proof.
  intros (Hp & H0 & H1 & Hd & S0 & S1 & Hc & He).
  assert (Hins : forall j, is_Some (wbufs w !! j) ->
                           is_Some (<[k := x]> (wbufs w) !! j)).
  { intros j Hj. destruct (decide (k = j)) as [->|Hne].
    - rewrite lookup_insert_eq. eexists. reflexivity.
    - rewrite lookup_insert_ne by exact Hne. exact Hj. }
  split; [exact Hp|]. split; [exact H0|]. split; [exact H1|].
  split; [exact Hd|]. cbn.
  split; [apply Hins; exact S0|]. split; [apply Hins; exact S1|].
  split; assumption.
Qed.

(** The descriptor an index in {0, 1} selects on a healthy session. *)
Lemma healthy_select p b0 b1 w d b :
  healthy p b0 b1 w -> objs w !! p = Some d -> b = 0 \/ b = 1 ->
  exists buffer wb,
    0 <= b /\ wavebufs d !! Z.to_nat b = Some buffer /\
    buffer <> NULL /\ wbufs w !! buffer = Some wb.
Proof.
  intros (Hp & H0 & H1 & (d0 & Hd0 & Hw) & [x0 S0] & [x1 S1] & _) Hd Hb.
  assert (d0 = d) by congruence. subst d0.
  destruct Hb as [->| ->]; rewrite Hw.
  - exists b0, x0. repeat split; [lia | assumption..].
  - exists b1, x1. repeat split; [lia | assumption..].
Qed.

Lemma n3ds_audioCallback_signals p w d :
  p <> NULL -> objs w !! p = Some d -> done d = false ->
  n3ds_audioCallback p w =
    Ok tt (mkWorld (<[p := set_event true d]> (objs w)) (wbufs w)
                   (engine w) (ndsp_cb w)
                   (log w ++ [LightEvent_Signal p])).
Proof.
  intros Hp Hd Hdone. unfold n3ds_audioCallback.
  rewrite (bind_Ok _ _ _ _ _ (load_data_Ok p w d Hp Hd)), Hdone.
  apply signal_event_Ok; assumption.
Qed.

Lemma n3ds_audioCallback_quiet_when_done p w d :
  p <> NULL -> objs w !! p = Some d -> done d = true ->
  n3ds_audioCallback p w = Ok tt w.
Proof.
  intros Hp Hd Hdone. unfold n3ds_audioCallback.
  rewrite (bind_Ok _ _ _ _ _ (load_data_Ok p w d Hp Hd)), Hdone.
  reflexivity.
Qed.

Lemma healthy_n3ds_audioCallback p b0 b1 w :
  healthy p b0 b1 w ->
  exists w', n3ds_audioCallback p w = Ok tt w' /\ healthy p b0 b1 w'.
Proof.
  intros H. pose proof H as (Hp & _ & _ & (d & Hd & Hw) & _).
  destruct (done d) eqn:Hdone.
  - exists w. split; [|exact H].
    apply (n3ds_audioCallback_quiet_when_done p w d); assumption.
  - eexists. split;
      [apply (n3ds_audioCallback_signals p w d); assumption|].
    apply (healthy_objs p b0 b1 w d); [exact H | exact Hd | reflexivity].
Qed.

Lemma healthy_request_shutdown p b0 b1 w :
  healthy p b0 b1 w ->
  exists w', request_shutdown w = Ok tt w' /\ healthy p b0 b1 w'.
Proof.
  intros H.
  pose proof H as (Hp & _ & _ & (d & Hd & Hw) & _ & _ & _ & [He|He]).
  - exists w. split; [|exact H].
    unfold request_shutdown, get_engine, mbind, exec_bind. rewrite He.
    reflexivity.
  - eexists. split; [apply (request_shutdown_Ok p w d); assumption|].
    apply (healthy_objs p b0 b1 w d); [exact H | exact Hd | reflexivity].
Qed.

Lemma lxor_1_in_range b : b = 0 \/ b = 1 -> Z.lxor b 1 = 0 \/ Z.lxor b 1 = 1.
Proof. intros [->| ->]; [right | left]; reflexivity. Qed.

Lemma healthy_n3ds_thread_step p b0 b1 s :
  healthy p b0 b1 (fst s) -> in_loop (snd s) ->
  healthy p b0 b1 (fst (n3ds_thread_step p s)) /\
  in_loop (snd (n3ds_thread_step p s)).
Proof.
  destruct s as [w ts]. cbn [fst snd]. intros H Hts.
  pose proof H as (Hp & _ & _ & (d & Hd & Hw) & _).
  destruct ts as [b|b| |]; try (split; [exact H | exact Hts]).
  - destruct (done d) eqn:Hdone.
    + rewrite (n3ds_thread_step_quit p b w d Hp Hd Hdone).
      split; [exact H | exact I].
    + destruct (healthy_select p b0 b1 w d b H Hd Hts)
        as (buffer & wb & Hb & Hbuf & Hn & Hwb).
      rewrite (n3ds_thread_step_pass p b w d buffer wb) by assumption.
      split; [|apply lxor_1_in_range; exact Hts].
      apply (healthy_wbufs p b0 b1 w). exact H.
  - destruct (event d) eqn:Hev.
    + rewrite (n3ds_thread_step_wake p b w d Hp Hd Hev).
      split; [|exact Hts].
      apply (healthy_objs p b0 b1 w d); [exact H | exact Hd | reflexivity].
    + unfold n3ds_thread_step. cbn [fst snd].
      rewrite (load_data_Ok p w d Hp Hd), Hev.
      split; [exact H | exact Hts].
Qed.

Lemma healthy_sys_step p b0 b1 a s :
  healthy p b0 b1 (fst s) -> in_loop (snd s) ->
  healthy p b0 b1 (fst (sys_step p a s)) /\ in_loop (snd (sys_step p a s)).
Proof.
  destruct s as [w ts]. cbn [fst snd]. intros H Hts.
  assert (Henv : forall m : exec unit,
             (exists w', m w = Ok tt w' /\ healthy p b0 b1 w') ->
             healthy p b0 b1 (fst (lift_env m (w, ts))) /\
             in_loop (snd (lift_env m (w, ts)))).
  { intros m (w' & E & Hw'). unfold lift_env. cbn [fst snd]. rewrite E.
    split; [exact Hw' | exact Hts]. }
  unfold sys_step. cbn [fst snd].
  destruct ts as [b|b| |]; try contradiction.
  all: destruct a;
    [ apply healthy_n3ds_thread_step; [exact H | exact Hts]
    | pose proof H as (_ & _ & _ & _ & _ & _ & [Hc|Hc] & _); rewrite Hc;
      [ split; [exact H | exact Hts]
      | apply Henv; apply healthy_n3ds_audioCallback; exact H ]
    | apply Henv; apply healthy_request_shutdown; exact H ].
Qed.

(** X14. A healthy session keeps the system free of faults.  Started on a
    session in memory whose two descriptor pointers are non-null and
    mapped, with the callback and the engine's handle, where set, on that
    session, no schedule of thread moves, frame callbacks and shutdown
    requests ever makes the thread or a callback read through a bad
    pointer, and the session stays healthy throughout. *)
Theorem healthy_session_never_faults
    (p b0 b1 : Z) (sched : list action) (w : world) :
  healthy p b0 b1 w ->
  healthy p b0 b1 (fst (sys_run p sched (w, n3ds_thread_start))) /\
  snd (sys_run p sched (w, n3ds_thread_start)) <> Aborted.
Proof.
  intros H.
  assert (G : forall s, healthy p b0 b1 (fst s) -> in_loop (snd s) ->
                healthy p b0 b1 (fst (sys_run p sched s)) /\
                in_loop (snd (sys_run p sched s))).
  { induction sched as [|a sched IH]; intros s Hs Hts.
    - split; assumption.
    - cbn [sys_run fold_left].
      destruct (healthy_sys_step p b0 b1 a s Hs Hts) as (Hs' & Hts').
      apply (IH _ Hs' Hts'). }
  destruct (G (w, n3ds_thread_start) H (or_introl eq_refl)) as (Hh & Hl).
  split; [exact Hh|].
  intros E. rewrite E in Hl. exact Hl.
Qed.

Lemma healthy_sample_running : healthy 0x1000 0x2000 0x2020 Sample.running.
Proof.
  split; [discriminate|]. split; [discriminate|]. split; [discriminate|].
  split; [exists Sample.session; split; reflexivity|].
  split; [eexists; reflexivity|]. split; [eexists; reflexivity|].
  split; right; reflexivity.
Qed.

Lemma healthy_session_never_faults_witness :
  healthy 0x1000 0x2000 0x2020
    (fst (sys_run 0x1000
            [ThreadStep; FrameCallback; ThreadStep; ThreadStep;
             RequestShutdown; ThreadStep]
            (Sample.running, n3ds_thread_start))) /\
  snd (sys_run 0x1000
         [ThreadStep; FrameCallback; ThreadStep; ThreadStep;
          RequestShutdown; ThreadStep]
         (Sample.running, n3ds_thread_start)) <> Aborted.
Proof.
  apply healthy_session_never_faults. exact healthy_sample_running.
Defined.

(* ===================================================================== *)
(** ** Further properties: completions drive the stream *)
(* ===================================================================== *)

Lemma sys_run_app p l1 l2 s :
  sys_run p (l1 ++ l2) s = sys_run p l2 (sys_run p l1 s).
Proof. unfold sys_run. apply fold_left_app. Qed.

(** A pass of a streaming thread: one submission, on the index it holds. *)
Lemma streaming_pass p b0 b1 w b :
  streaming p b0 b1 w -> b = 0 \/ b = 1 ->
  exists w' l,
    n3ds_thread_step p (w, LoopHead b) = (w', Blocked (Z.lxor b 1)) /\
    streaming p b0 b1 w' /\
    log w' = log w ++ l /\ submitted l = [b].
Proof.
  intros (H & Hc & d & Hd & Hdone & Hev) Hb.
  pose proof H as (Hp & _).
  destruct (healthy_select p b0 b1 w d b H Hd Hb)
    as (buffer & wb & Hb0 & Hbuf & Hn & Hwb).
  rewrite (n3ds_thread_step_pass p b w d buffer wb) by assumption.
  eexists _, _. split; [reflexivity|]. split; [|split].
  - split; [apply (healthy_wbufs p b0 b1 w); exact H|].
    split; [exact Hc|]. exists d. repeat split; assumption.
  - cbn. rewrite <- app_assoc. reflexivity.
  - reflexivity.
Qed.

(** A completion reaching a parked streaming thread: the callback signals,
    the thread consumes the signal and stands at the loop test again. *)
Lemma streaming_completion p b0 b1 w b :
  streaming p b0 b1 w ->
  exists w',
    sys_run p [FrameCallback; ThreadStep] (w, Blocked b) = (w', LoopHead b) /\
    streaming p b0 b1 w' /\
    log w' = log w ++ [LightEvent_Signal p].
Proof.
  intros (H & Hc & d & Hd & Hdone & Hev).
  pose proof H as (Hp & _).
  unfold sys_run. cbn [fold_left].
  unfold sys_step at 2. cbn [fst snd]. rewrite Hc.
  unfold lift_env. cbn [fst snd].
  rewrite (n3ds_audioCallback_signals p w d Hp Hd Hdone).
  unfold sys_step. cbn [fst snd].
  erewrite n3ds_thread_step_wake;
    [| exact Hp | cbn; apply lookup_insert_eq | reflexivity].
  eexists. split; [reflexivity|]. split; [|reflexivity].
  cbn. rewrite insert_insert_eq. split; [|split].
  - apply (healthy_objs p b0 b1 w d); [exact H | exact Hd | reflexivity].
  - exact Hc.
  - eexists. cbn. rewrite lookup_insert_eq.
    split; [reflexivity|]. split; [exact Hdone | reflexivity].
Qed.

Lemma streaming_cycle p b0 b1 w b :
  streaming p b0 b1 w -> b = 0 \/ b = 1 ->
  exists w' l,
    sys_run p cycle (w, Blocked b) = (w', Blocked (Z.lxor b 1)) /\
    streaming p b0 b1 w' /\
    log w' = log w ++ l /\ submitted l = [b].
Proof.
  intros H Hb.
  destruct (streaming_completion p b0 b1 w b H) as (w1 & E1 & H1 & L1).
  destruct (streaming_pass p b0 b1 w1 b H1 Hb) as (w2 & l & E2 & H2 & L2 & S2).
  exists w2, (LightEvent_Signal p :: l).
  split; [|split; [exact H2|split]].
  - change cycle with ([FrameCallback; ThreadStep] ++ [ThreadStep]).
    rewrite sys_run_app, E1. unfold sys_run. cbn [fold_left].
    unfold sys_step. cbn [fst snd]. exact E2.
  - rewrite L2, L1, <- app_assoc. reflexivity.
  - exact S2.
Qed.

Lemma nth_index_in_range k : nth_index k = 0 \/ nth_index k = 1.
Proof. unfold nth_index. destruct (Nat.even k); [left | right]; reflexivity. Qed.

Lemma streaming_cycles p b0 b1 n :
  forall w k,
    streaming p b0 b1 w ->
    exists w' l,
      sys_run p (cycles n) (w, Blocked (nth_index k))
      = (w', Blocked (nth_index (k + n))) /\
      streaming p b0 b1 w' /\
      log w' = log w ++ l /\
      submitted l = alternating (nth_index k) n.
Proof.
  induction n as [|n IH]; intros w k H.
  - exists w, []. rewrite Nat.add_0_r, app_nil_r.
    split; [reflexivity|]. split; [exact H|]. split; reflexivity.
  - destruct (streaming_cycle p b0 b1 w (nth_index k) H (nth_index_in_range k))
      as (w1 & l1 & E1 & H1 & L1 & S1).
    rewrite nth_index_succ in E1.
    destruct (IH w1 (S k) H1) as (w2 & l2 & E2 & H2 & L2 & S2).
    exists w2, (l1 ++ l2). cbn [cycles].
    rewrite sys_run_app, E1, E2.
    replace (k + S n)%nat with (S k + n)%nat by lia.
    split; [reflexivity|]. split; [exact H2|]. split.
    + rewrite L2, L1, app_assoc. reflexivity.
    + rewrite submitted_app, S1, S2. cbn [alternating].
      rewrite nth_index_succ. reflexivity.
Qed.

(** X15. Completions drive the stream one buffer at a time.  On a streaming
    session, the thread's first move followed by [n] rounds of "frame
    callback, wake, pass" leaves the thread parked in its wait with exactly
    [n + 1] buffers submitted, on the indices 0,1,0,1,..., and the session
    streaming as before. *)
Theorem completions_drive_submissions
    (p b0 b1 : Z) (n : nat) (w : world) :
  streaming p b0 b1 w ->
  exists w' new,
    sys_run p (ThreadStep :: cycles n) (w, n3ds_thread_start)
    = (w', Blocked (nth_index (S n))) /\
    streaming p b0 b1 w' /\
    log w' = log w ++ new /\
    submitted new = alternating 0 (S n).
Proof.
  intros H.
  destruct (streaming_pass p b0 b1 w 0 H (or_introl eq_refl))
    as (w1 & l1 & E1 & H1 & L1 & S1).
  destruct (streaming_cycles p b0 b1 n w1 1%nat H1)
    as (w2 & l2 & E2 & H2 & L2 & S2).
  exists w2, (l1 ++ l2).
  change (ThreadStep :: cycles n) with ([ThreadStep] ++ cycles n).
  rewrite sys_run_app.
  assert (E0 : sys_run p [ThreadStep] (w, n3ds_thread_start)
               = (w1, Blocked (nth_index 1))) by exact E1.
  rewrite E0, E2.
  split; [reflexivity|]. split; [exact H2|]. split.
  - rewrite L2, L1, app_assoc. reflexivity.
  - rewrite submitted_app, S1, S2. reflexivity.
Qed.

Lemma streaming_sample_running : streaming 0x1000 0x2000 0x2020 Sample.running.
Proof.
  split; [exact healthy_sample_running|]. split; [reflexivity|].
  exists Sample.session. repeat split; reflexivity.
Qed.

Lemma completions_drive_submissions_witness :
  exists w' new,
    sys_run 0x1000 (ThreadStep :: cycles 3) (Sample.running, n3ds_thread_start)
    = (w', Blocked (nth_index 4)) /\
    streaming 0x1000 0x2000 0x2020 w' /\
    log w' = log Sample.running ++ new /\
    submitted new = alternating 0 4.
Proof.
  apply completions_drive_submissions. exact streaming_sample_running.
Defined.

(* ===================================================================== *)
(** ** Further properties: edge cases of the thread and of the spawn *)
(* ===================================================================== *)

(** X16. The thread does not survive a null descriptor pointer.  On a
    session in memory whose quit flag is clear and whose descriptor slot
    for the current index holds the null pointer (as [memset] leaves both
    slots), the thread's move from the loop test stops at the read of
    [data_vaddr] before anything is rendered, submitted or flushed. *)
Theorem n3ds_thread_null_descriptor (p b : Z) (w : world) (d : N3Data) :
  p <> NULL ->
  objs w !! p = Some d ->
  done d = false ->
  0 <= b ->
  wavebufs d !! Z.to_nat b = Some NULL ->
  n3ds_thread_body p b w = Fault w /\
  n3ds_thread_step p (w, LoopHead b) = (w, Aborted).
Proof.
  intros Hp Hd Hdone Hb Hnull.
  assert (Hbody : n3ds_thread_body p b w = Fault w).
  { unfold n3ds_thread_body.
    rewrite (bind_Ok _ _ _ _ _ (load_data_Ok p w d Hp Hd)).
    rewrite (bind_Ok _ _ _ _ _ (index_Ok _ b NULL w Hb Hnull)).
    reflexivity. }
  split; [exact Hbody|].
  unfold n3ds_thread_step. cbn [fst snd].
  rewrite (load_data_Ok p w d Hp Hd), Hdone.
  rewrite (bind_Fault _ _ _ _ Hbody). reflexivity.
Qed.

Lemma n3ds_thread_null_descriptor_witness :
  n3ds_thread_body 0x1000 0
    (set_objs (<[0x1000 := N3Data_zero]> ∅) Sample.running)
  = Fault (set_objs (<[0x1000 := N3Data_zero]> ∅) Sample.running) /\
  n3ds_thread_step 0x1000
    (set_objs (<[0x1000 := N3Data_zero]> ∅) Sample.running, LoopHead 0)
  = (set_objs (<[0x1000 := N3Data_zero]> ∅) Sample.running, Aborted).
Proof.
  apply (n3ds_thread_null_descriptor 0x1000 0 _ N3Data_zero);
    first [discriminate | reflexivity | lia].
Defined.

(** X17. When [svcGetThreadPriority] leaves the variable alone, the thread
    is created from the initial value [0x30], that is with priority
    [0x2F], on whatever session the spawn runs. *)
Theorem init_spawn_default_priority
    (data : Z) (env : init_env) (w : world) (d : N3Data) :
  data <> NULL ->
  objs w !! data = Some d ->
  svcGetThreadPriority_out env = None ->
  exists w',
    init_spawn data env w = Ok SO_NO_ERROR w' /\
    log w' = log w ++ [svcGetThreadPriority;
                       threadCreate data (32 * 1024) 0x2F (-1) false] /\
    tid <$> objs w' !! data = Some (threadCreate_ret env).
Proof.
  intros Hp Hd Hq.
  rewrite (init_spawn_Ok data env w d Hp Hd), Hq.
  eexists. split; [reflexivity|]. cbn [log objs].
  split; [reflexivity|]. rewrite lookup_insert_eq. reflexivity.
Qed.

Lemma init_spawn_default_priority_witness :
  exists w',
    init_spawn 0x1000 (mkEnv 1 0x1000 0x8000 None 9) Sample.running
    = Ok SO_NO_ERROR w' /\
    log w' = log Sample.running
             ++ [svcGetThreadPriority;
                 threadCreate 0x1000 (32 * 1024) 0x2F (-1) false] /\
    tid <$> objs w' !! 0x1000 = Some 9.
Proof.
  apply (init_spawn_default_priority 0x1000 (mkEnv 1 0x1000 0x8000 None 9)
           Sample.running Sample.session);
    first [discriminate | reflexivity].
Defined.
